(** * forms-flow-api: the form process mapper model

    A shallow embedding of
    [forms-flow-api/src/formsflow_api/models/form_process_mapper.py]:
    the [FormProcessMapper] table, its create / update / soft-delete
    mutations, the query builder ([filter_conditions], [access_filter],
    [tenant_authorization]) and the listing and point-lookup operations.

    Rows are records typed after the column declarations of the class.
    Python values that arrive in dictionaries (field bags, filters) are
    [pyval]s.  A query is a value that is built up by the model methods and
    run against the table; the SQL it stands for is evaluated on lists of
    rows.  Exceptions are values of [exn], threaded through [result]. *)

From stdpp Require Import gmap strings list fin_maps.
From Stdlib Require Import ZArith Permutation Sorted.

Local Open Scope Z_scope.

#[local] Set Warnings "-register-all".

(** ** Python values *)

Inductive pyval : Type :=
  | PNone
  | PBool (b : bool)
  | PInt (z : Z)
  | PStr (s : string)
  | PList (l : list pyval)
  | PDict (d : list (string * pyval)).

(** Truth value testing of Python, as used by [if value:]. *)
Definition truthy (v : pyval) : bool :=
  match v with
  | PNone => false
  | PBool b => b
  | PInt z => negb (z =? 0)
  | PStr s => negb (String.eqb s "")
  | PList l => match l with [] => false | _ => true end
  | PDict d => match d with [] => false | _ => true end
  end.

(** ** Exceptions and results *)

Inductive exn : Type :=
  | KeyError (key : string)
  | TypeError (msg : string)
  | DataError (column : string)
  | IntegrityError (column : string)
  | SQLAlchemyError (msg : string).

Inductive result (A : Type) : Type :=
  | Return (a : A)
  | Raise (e : exn).
Arguments Return {A} a.
Arguments Raise {A} e.

#[global] Instance result_ret : MRet result := fun A a => Return a.
#[global] Instance result_bind : MBind result := fun A B f r =>
  match r with
  | Return a => f a
  | Raise e => Raise e
  end.

(** [d[key]]: raises [KeyError] when the key is missing. *)
Definition getitem (d : gmap string pyval) (key : string) : result pyval :=
  match d !! key with
  | Some v => Return v
  | None => Raise (KeyError key)
  end.

(** [d.get(key)]: [None] when the key is missing. *)
Definition dict_get (d : gmap string pyval) (key : string) : pyval :=
  default PNone (d !! key).

(** [if d:] on a dictionary. *)
Definition dict_truthy (d : gmap string pyval) : bool :=
  negb (bool_decide (d = ∅)).

(** ** The table *)

(** One row of [form_process_mapper].  A column declared [nullable=False]
    (and the primary key) holds a value, a nullable one an [option].
    [created_by], [modified_by], [created] and [modified] are the columns of
    the audit mixins the class inherits. *)
Record FormProcessMapper : Type := {
  id : Z;
  form_id : string;
  form_name : string;
  form_type : string;
  parent_form_id : string;
  process_key : option string;
  process_name : option string;
  status : option string;
  comments : option string;
  tenant : option string;
  process_tenant : option string;
  is_anonymous : option bool;
  deleted : option bool;
  task_variable : pyval;
  version : Z;
  description : option string;
  created_by : option string;
  modified_by : option string;
  created : option Z;
  modified : option Z
}.

Definition Table : Type := list FormProcessMapper.

(** Assignment to one column. *)
Definition set_id (v : Z) (m : FormProcessMapper) : FormProcessMapper :=
  {| id := v; form_id := form_id m; form_name := form_name m;
     form_type := form_type m; parent_form_id := parent_form_id m;
     process_key := process_key m; process_name := process_name m;
     status := status m; comments := comments m; tenant := tenant m;
     process_tenant := process_tenant m; is_anonymous := is_anonymous m;
     deleted := deleted m; task_variable := task_variable m;
     version := version m; description := description m;
     created_by := created_by m; modified_by := modified_by m;
     created := created m; modified := modified m |}.

Definition set_form_id (v : string) (m : FormProcessMapper) : FormProcessMapper :=
  {| id := id m; form_id := v; form_name := form_name m;
     form_type := form_type m; parent_form_id := parent_form_id m;
     process_key := process_key m; process_name := process_name m;
     status := status m; comments := comments m; tenant := tenant m;
     process_tenant := process_tenant m; is_anonymous := is_anonymous m;
     deleted := deleted m; task_variable := task_variable m;
     version := version m; description := description m;
     created_by := created_by m; modified_by := modified_by m;
     created := created m; modified := modified m |}.

Definition set_form_name (v : string) (m : FormProcessMapper) : FormProcessMapper :=
  {| id := id m; form_id := form_id m; form_name := v;
     form_type := form_type m; parent_form_id := parent_form_id m;
     process_key := process_key m; process_name := process_name m;
     status := status m; comments := comments m; tenant := tenant m;
     process_tenant := process_tenant m; is_anonymous := is_anonymous m;
     deleted := deleted m; task_variable := task_variable m;
     version := version m; description := description m;
     created_by := created_by m; modified_by := modified_by m;
     created := created m; modified := modified m |}.

Definition set_form_type (v : string) (m : FormProcessMapper) : FormProcessMapper :=
  {| id := id m; form_id := form_id m; form_name := form_name m;
     form_type := v; parent_form_id := parent_form_id m;
     process_key := process_key m; process_name := process_name m;
     status := status m; comments := comments m; tenant := tenant m;
     process_tenant := process_tenant m; is_anonymous := is_anonymous m;
     deleted := deleted m; task_variable := task_variable m;
     version := version m; description := description m;
     created_by := created_by m; modified_by := modified_by m;
     created := created m; modified := modified m |}.

Definition set_parent_form_id (v : string) (m : FormProcessMapper) : FormProcessMapper :=
  {| id := id m; form_id := form_id m; form_name := form_name m;
     form_type := form_type m; parent_form_id := v;
     process_key := process_key m; process_name := process_name m;
     status := status m; comments := comments m; tenant := tenant m;
     process_tenant := process_tenant m; is_anonymous := is_anonymous m;
     deleted := deleted m; task_variable := task_variable m;
     version := version m; description := description m;
     created_by := created_by m; modified_by := modified_by m;
     created := created m; modified := modified m |}.

Definition set_process_key (v : option string) (m : FormProcessMapper) : FormProcessMapper :=
  {| id := id m; form_id := form_id m; form_name := form_name m;
     form_type := form_type m; parent_form_id := parent_form_id m;
     process_key := v; process_name := process_name m; status := status m;
     comments := comments m; tenant := tenant m;
     process_tenant := process_tenant m; is_anonymous := is_anonymous m;
     deleted := deleted m; task_variable := task_variable m;
     version := version m; description := description m;
     created_by := created_by m; modified_by := modified_by m;
     created := created m; modified := modified m |}.

Definition set_process_name (v : option string) (m : FormProcessMapper) : FormProcessMapper :=
  {| id := id m; form_id := form_id m; form_name := form_name m;
     form_type := form_type m; parent_form_id := parent_form_id m;
     process_key := process_key m; process_name := v; status := status m;
     comments := comments m; tenant := tenant m;
     process_tenant := process_tenant m; is_anonymous := is_anonymous m;
     deleted := deleted m; task_variable := task_variable m;
     version := version m; description := description m;
     created_by := created_by m; modified_by := modified_by m;
     created := created m; modified := modified m |}.

Definition set_status (v : option string) (m : FormProcessMapper) : FormProcessMapper :=
  {| id := id m; form_id := form_id m; form_name := form_name m;
     form_type := form_type m; parent_form_id := parent_form_id m;
     process_key := process_key m; process_name := process_name m;
     status := v; comments := comments m; tenant := tenant m;
     process_tenant := process_tenant m; is_anonymous := is_anonymous m;
     deleted := deleted m; task_variable := task_variable m;
     version := version m; description := description m;
     created_by := created_by m; modified_by := modified_by m;
     created := created m; modified := modified m |}.

Definition set_comments (v : option string) (m : FormProcessMapper) : FormProcessMapper :=
  {| id := id m; form_id := form_id m; form_name := form_name m;
     form_type := form_type m; parent_form_id := parent_form_id m;
     process_key := process_key m; process_name := process_name m;
     status := status m; comments := v; tenant := tenant m;
     process_tenant := process_tenant m; is_anonymous := is_anonymous m;
     deleted := deleted m; task_variable := task_variable m;
     version := version m; description := description m;
     created_by := created_by m; modified_by := modified_by m;
     created := created m; modified := modified m |}.

Definition set_tenant (v : option string) (m : FormProcessMapper) : FormProcessMapper :=
  {| id := id m; form_id := form_id m; form_name := form_name m;
     form_type := form_type m; parent_form_id := parent_form_id m;
     process_key := process_key m; process_name := process_name m;
     status := status m; comments := comments m; tenant := v;
     process_tenant := process_tenant m; is_anonymous := is_anonymous m;
     deleted := deleted m; task_variable := task_variable m;
     version := version m; description := description m;
     created_by := created_by m; modified_by := modified_by m;
     created := created m; modified := modified m |}.

Definition set_process_tenant (v : option string) (m : FormProcessMapper) : FormProcessMapper :=
  {| id := id m; form_id := form_id m; form_name := form_name m;
     form_type := form_type m; parent_form_id := parent_form_id m;
     process_key := process_key m; process_name := process_name m;
     status := status m; comments := comments m; tenant := tenant m;
     process_tenant := v; is_anonymous := is_anonymous m;
     deleted := deleted m; task_variable := task_variable m;
     version := version m; description := description m;
     created_by := created_by m; modified_by := modified_by m;
     created := created m; modified := modified m |}.

Definition set_is_anonymous (v : option bool) (m : FormProcessMapper) : FormProcessMapper :=
  {| id := id m; form_id := form_id m; form_name := form_name m;
     form_type := form_type m; parent_form_id := parent_form_id m;
     process_key := process_key m; process_name := process_name m;
     status := status m; comments := comments m; tenant := tenant m;
     process_tenant := process_tenant m; is_anonymous := v;
     deleted := deleted m; task_variable := task_variable m;
     version := version m; description := description m;
     created_by := created_by m; modified_by := modified_by m;
     created := created m; modified := modified m |}.

Definition set_deleted (v : option bool) (m : FormProcessMapper) : FormProcessMapper :=
  {| id := id m; form_id := form_id m; form_name := form_name m;
     form_type := form_type m; parent_form_id := parent_form_id m;
     process_key := process_key m; process_name := process_name m;
     status := status m; comments := comments m; tenant := tenant m;
     process_tenant := process_tenant m; is_anonymous := is_anonymous m;
     deleted := v; task_variable := task_variable m; version := version m;
     description := description m; created_by := created_by m;
     modified_by := modified_by m; created := created m;
     modified := modified m |}.

Definition set_task_variable (v : pyval) (m : FormProcessMapper) : FormProcessMapper :=
  {| id := id m; form_id := form_id m; form_name := form_name m;
     form_type := form_type m; parent_form_id := parent_form_id m;
     process_key := process_key m; process_name := process_name m;
     status := status m; comments := comments m; tenant := tenant m;
     process_tenant := process_tenant m; is_anonymous := is_anonymous m;
     deleted := deleted m; task_variable := v; version := version m;
     description := description m; created_by := created_by m;
     modified_by := modified_by m; created := created m;
     modified := modified m |}.

Definition set_version (v : Z) (m : FormProcessMapper) : FormProcessMapper :=
  {| id := id m; form_id := form_id m; form_name := form_name m;
     form_type := form_type m; parent_form_id := parent_form_id m;
     process_key := process_key m; process_name := process_name m;
     status := status m; comments := comments m; tenant := tenant m;
     process_tenant := process_tenant m; is_anonymous := is_anonymous m;
     deleted := deleted m; task_variable := task_variable m; version := v;
     description := description m; created_by := created_by m;
     modified_by := modified_by m; created := created m;
     modified := modified m |}.

Definition set_description (v : option string) (m : FormProcessMapper) : FormProcessMapper :=
  {| id := id m; form_id := form_id m; form_name := form_name m;
     form_type := form_type m; parent_form_id := parent_form_id m;
     process_key := process_key m; process_name := process_name m;
     status := status m; comments := comments m; tenant := tenant m;
     process_tenant := process_tenant m; is_anonymous := is_anonymous m;
     deleted := deleted m; task_variable := task_variable m;
     version := version m; description := v; created_by := created_by m;
     modified_by := modified_by m; created := created m;
     modified := modified m |}.

Definition set_created_by (v : option string) (m : FormProcessMapper) : FormProcessMapper :=
  {| id := id m; form_id := form_id m; form_name := form_name m;
     form_type := form_type m; parent_form_id := parent_form_id m;
     process_key := process_key m; process_name := process_name m;
     status := status m; comments := comments m; tenant := tenant m;
     process_tenant := process_tenant m; is_anonymous := is_anonymous m;
     deleted := deleted m; task_variable := task_variable m;
     version := version m; description := description m; created_by := v;
     modified_by := modified_by m; created := created m;
     modified := modified m |}.

Definition set_modified_by (v : option string) (m : FormProcessMapper) : FormProcessMapper :=
  {| id := id m; form_id := form_id m; form_name := form_name m;
     form_type := form_type m; parent_form_id := parent_form_id m;
     process_key := process_key m; process_name := process_name m;
     status := status m; comments := comments m; tenant := tenant m;
     process_tenant := process_tenant m; is_anonymous := is_anonymous m;
     deleted := deleted m; task_variable := task_variable m;
     version := version m; description := description m;
     created_by := created_by m; modified_by := v; created := created m;
     modified := modified m |}.

Definition set_created (v : option Z) (m : FormProcessMapper) : FormProcessMapper :=
  {| id := id m; form_id := form_id m; form_name := form_name m;
     form_type := form_type m; parent_form_id := parent_form_id m;
     process_key := process_key m; process_name := process_name m;
     status := status m; comments := comments m; tenant := tenant m;
     process_tenant := process_tenant m; is_anonymous := is_anonymous m;
     deleted := deleted m; task_variable := task_variable m;
     version := version m; description := description m;
     created_by := created_by m; modified_by := modified_by m; created := v;
     modified := modified m |}.

Definition set_modified (v : option Z) (m : FormProcessMapper) : FormProcessMapper :=
  {| id := id m; form_id := form_id m; form_name := form_name m;
     form_type := form_type m; parent_form_id := parent_form_id m;
     process_key := process_key m; process_name := process_name m;
     status := status m; comments := comments m; tenant := tenant m;
     process_tenant := process_tenant m; is_anonymous := is_anonymous m;
     deleted := deleted m; task_variable := task_variable m;
     version := version m; description := description m;
     created_by := created_by m; modified_by := modified_by m;
     created := created m; modified := v |}.


(** ** Queries

    A [Query] is what the methods of the model build: the conditions given
    to [filter] (a row is kept when all of them hold), the ordering given
    to [order_by], and the [limit] and [offset].  A condition is a boolean
    function of the row: it answers whether the SQL predicate is true,
    so a comparison with a NULL column, which SQL evaluates to unknown,
    answers [false]. *)

Definition condition : Type := FormProcessMapper → bool.
Definition ordering : Type := FormProcessMapper → FormProcessMapper → bool.

Record Query : Type := {
  q_filter : list condition;
  q_order : option ordering;
  q_limit : option nat;
  q_offset : nat
}.

(** [cls.query] *)
Definition base_query : Query :=
  {| q_filter := []; q_order := None; q_limit := None; q_offset := 0%nat |}.

(** [query.filter(c1, ..., cn)] *)
Definition query_filter (q : Query) (cs : list condition) : Query :=
  {| q_filter := q_filter q ++ cs; q_order := q_order q;
     q_limit := q_limit q; q_offset := q_offset q |}.

(** [query.order_by(o)] *)
Definition query_order_by (q : Query) (o : ordering) : Query :=
  {| q_filter := q_filter q; q_order := Some o;
     q_limit := q_limit q; q_offset := q_offset q |}.

(** [query.limit(n)] and [query.offset(n)] *)
Definition query_limit (q : Query) (n : nat) : Query :=
  {| q_filter := q_filter q; q_order := q_order q;
     q_limit := Some n; q_offset := q_offset q |}.

Definition query_offset (q : Query) (n : nat) : Query :=
  {| q_filter := q_filter q; q_order := q_order q;
     q_limit := q_limit q; q_offset := n |}.

(** *** Running a query *)

Definition holds_all (cs : list condition) (r : FormProcessMapper) : bool :=
  forallb (fun c => c r) cs.

(** ORDER BY: a stable insertion sort by the ordering of the query; rows
    that the ordering does not separate keep the order of the table. *)
Fixpoint insert_sorted {A} (le : A → A → bool) (x : A) (l : list A) : list A :=
  match l with
  | [] => [x]
  | y :: l' => if le x y then x :: l else y :: insert_sorted le x l'
  end.

Definition sort_rows {A} (le : A → A → bool) (l : list A) : list A :=
  foldr (insert_sorted le) [] l.

Definition order_rows {A} (o : option (A → A → bool)) (l : list A) : list A :=
  match o with
  | Some le => sort_rows le l
  | None => l
  end.

Definition limit_rows {A} (n : option nat) (l : list A) : list A :=
  match n with
  | Some k => take k l
  | None => l
  end.

(** The rows a query matches: WHERE, then ORDER BY. *)
Definition matching (q : Query) (db : Table) : list FormProcessMapper :=
  order_rows (q_order q) (List.filter (holds_all (q_filter q)) db).

(** [query.all()]: the matching rows from OFFSET on, at most LIMIT. *)
Definition query_all (q : Query) (db : Table) : list FormProcessMapper :=
  limit_rows (q_limit q) (drop (q_offset q) (matching q db)).

(** [query.count()] *)
Definition query_count (q : Query) (db : Table) : Z :=
  Z.of_nat (length (query_all q db)).

(** [query.first()]: the first row of the result, [None] when it is empty. *)
Definition query_first (q : Query) (db : Table) : option FormProcessMapper :=
  head (query_all q db).

(** *** Column predicates *)

(** [column == value] on a nullable text column against a text value. *)
Definition eq_str (c : option string) (v : string) : bool :=
  match c with
  | Some s => String.eqb s v
  | None => false
  end.

(** [column == value] where the Python value may be [None]: SQLAlchemy
    renders a comparison with [None] as [IS NULL]. *)
Definition eq_opt_str (c : option string) (v : option string) : bool :=
  match v with
  | Some s => eq_str c s
  | None => match c with None => true | Some _ => false end
  end.

(** [column.in_(values)] *)
Definition in_str (c : option string) (vs : list string) : bool :=
  existsb (eq_str c) vs.

Definition in_Z (c : Z) (vs : list Z) : bool :=
  existsb (Z.eqb c) vs.

(** [column.is_(False)] *)
Definition is_false (c : option bool) : bool :=
  match c with
  | Some false => true
  | _ => false
  end.

(** *** Pagination

    [query.paginate(page=, per_page=, error_out=False)] of Flask-SQLAlchemy:
    without a page it takes the [page] argument of the request ([1] when
    there is none); a page below 1 becomes 1 and a page size below 1 becomes
    20; the items are the rows of the query at
    [limit(per_page).offset((page - 1) * per_page)]. *)
Definition prepare_page (request_page : Z) (page : option Z) : Z :=
  let p := match page with Some p => p | None => request_page end in
  if p <? 1 then 1 else p.

Definition prepare_per_page (per_page : Z) : Z :=
  if per_page <? 1 then 20 else per_page.

Definition paginate (request_page : Z) (page : option Z) (per_page : Z)
    (q : Query) (db : Table) : list FormProcessMapper :=
  let page := prepare_page request_page page in
  let per_page := prepare_per_page per_page in
  query_all
    (query_offset (query_limit q (Z.to_nat per_page))
                  (Z.to_nat ((page - 1) * per_page)))
    db.

(** ** Collaborators

    What the module imports and this file does not define: the status
    enumeration and the filter table of [formsflow_api_utils], the sort
    validator, the ordering that an ORDER BY text denotes, and the
    persistence primitives of [BaseModel] that talk to the database. *)

Record filter_map : Type := {
  fm_field : string;
  fm_operator : string
}.

Class Collaborators : Type := {
  (** [FormProcessMapperStatus.ACTIVE.value] and [.INACTIVE.value] *)
  ACTIVE : string;
  INACTIVE : string;
  (** [FILTER_MAPS]: logical filter name to column and operator *)
  FILTER_MAPS : gmap string filter_map;
  (** [BaseModel.create_filter_condition(model, column_name, operator, value)] *)
  create_filter_condition : string → string → pyval → result condition;
  (** [validate_sort_order_and_order_by(sort_by, sort_order)] *)
  validate_sort_order_and_order_by :
    option string → option string → option string * option string;
  (** the ordering of [text("form_process_mapper.<sort_by> <sort_order>")] *)
  text_order : string → string → ordering;
  (** [BaseModel.save]: add the new object to the session and commit; gives
      the persisted row and the new table, or the exception of the database *)
  save : gmap string pyval → Table → result (FormProcessMapper * Table)
}.

(** The ambient request: the user context that [@user_context] injects as
    [kwargs["user"]], and the [page] argument that the paginator reads when
    it is given no page. *)
Record UserContext : Type := {
  tenant_key : option string
}.

Record Ambient : Type := {
  user : UserContext;
  request_page : Z
}.

(** The database and the application log. *)
Record World : Type := {
  db : Table;
  log : list exn
}.

(** An argument that the caller says is a query. *)
Inductive pyobj : Type :=
  | PyQuery (q : Query)
  | PyOther (v : pyval).

Definition opt_truthy (s : option string) : bool :=
  match s with
  | Some s => negb (String.eqb s "")
  | None => false
  end.

Definition list_truthy {A} (l : option (list A)) : bool :=
  match l with
  | Some (_ :: _) => true
  | _ => false
  end.

(** *** Setting a column from a Python value

    What the flush of an attribute assignment stores: text in a text
    column, a boolean in a boolean column, anything in the JSON column;
    [None] only where the column is nullable. *)
Definition as_str (column : string) (v : pyval) : result string :=
  match v with
  | PStr s => Return s
  | PNone => Raise (IntegrityError column)
  | _ => Raise (DataError column)
  end.

Definition as_opt_str (column : string) (v : pyval) : result (option string) :=
  match v with
  | PStr s => Return (Some s)
  | PNone => Return None
  | _ => Raise (DataError column)
  end.

Definition as_opt_bool (column : string) (v : pyval) : result (option bool) :=
  match v with
  | PBool b => Return (Some b)
  | PNone => Return None
  | _ => Raise (DataError column)
  end.

Definition as_int (column : string) (v : pyval) : result Z :=
  match v with
  | PInt z => Return z
  | PNone => Raise (IntegrityError column)
  | _ => Raise (DataError column)
  end.

Definition as_opt_int (column : string) (v : pyval) : result (option Z) :=
  match v with
  | PInt z => Return (Some z)
  | PNone => Return None
  | _ => Raise (DataError column)
  end.

(** [setattr(self, key, value)], with the outcome of its flush: Python
    accepts any value, and the commit that follows raises for one that the
    column does not take.  A name that is not a column of the class (such
    as [form_revision_number]) creates a plain attribute on the object, and
    no column changes. *)
Definition setattr (self : FormProcessMapper) (key : string) (value : pyval)
    : result FormProcessMapper :=
  if String.eqb key "form_id" then
    v ← as_str key value; mret (set_form_id v self)
  else if String.eqb key "form_name" then
    v ← as_str key value; mret (set_form_name v self)
  else if String.eqb key "form_type" then
    v ← as_str key value; mret (set_form_type v self)
  else if String.eqb key "process_key" then
    v ← as_opt_str key value; mret (set_process_key v self)
  else if String.eqb key "process_name" then
    v ← as_opt_str key value; mret (set_process_name v self)
  else if String.eqb key "status" then
    v ← as_opt_str key value; mret (set_status v self)
  else if String.eqb key "comments" then
    v ← as_opt_str key value; mret (set_comments v self)
  else if String.eqb key "modified_by" then
    v ← as_opt_str key value; mret (set_modified_by v self)
  else if String.eqb key "is_anonymous" then
    v ← as_opt_bool key value; mret (set_is_anonymous v self)
  else if String.eqb key "task_variable" then
    mret (set_task_variable value self)
  else if String.eqb key "process_tenant" then
    v ← as_opt_str key value; mret (set_process_tenant v self)
  else if String.eqb key "description" then
    v ← as_opt_str key value; mret (set_description v self)
  else if String.eqb key "id" then
    v ← as_int key value; mret (set_id v self)
  else if String.eqb key "parent_form_id" then
    v ← as_str key value; mret (set_parent_form_id v self)
  else if String.eqb key "tenant" then
    v ← as_opt_str key value; mret (set_tenant v self)
  else if String.eqb key "deleted" then
    v ← as_opt_bool key value; mret (set_deleted v self)
  else if String.eqb key "version" then
    v ← as_int key value; mret (set_version v self)
  else if String.eqb key "created_by" then
    v ← as_opt_str key value; mret (set_created_by v self)
  else if String.eqb key "created" then
    v ← as_opt_int key value; mret (set_created v self)
  else if String.eqb key "modified" then
    v ← as_opt_int key value; mret (set_modified v self)
  else
    mret self.

(** Modelled from the spec: [BaseModel.update_from_dict(columns, values)],
    which is not part of this file: "patches a fixed allow-list of mutable
    fields".  For each name of [columns], in order, that is a key of the
    bag, the attribute of that name is set to the bag's value; nothing else
    is touched. *)
Fixpoint update_from_dict (self : FormProcessMapper) (columns : list string)
    (values_dict : gmap string pyval) : result FormProcessMapper :=
  match columns with
  | [] => mret self
  | key :: columns' =>
      match values_dict !! key with
      | Some value =>
          self' ← setattr self key value;
          update_from_dict self' columns' values_dict
      | None => update_from_dict self columns' values_dict
      end
  end.

(** [BaseModel.commit] for changes of one loaded row: the UPDATE of the row
    with the primary key of [self].  The [modified] timestamp, which the
    audit mixin maintains, is left as it is. *)
Definition commit (self : FormProcessMapper) (t : Table) : Table :=
  map (fun r => if id r =? id self then self else r) t.

(** A query without LIMIT and OFFSET, as the listings build it. *)
Definition unpaged (q : Query) : Prop :=
  q_limit q = None ∧ q_offset q = 0%nat.

(** The page that the paginator serves. *)
Definition served_page (amb : Ambient) (page_number : option Z) : Z :=
  prepare_page (request_page amb) page_number.


(** ** The model *)

Section Model.
Context `{Collaborators}.

(** *** create_from_dict *)

(** What [create_from_dict] returns: the mapper, or the pair of a response
    body and an HTTP status. *)
Inductive create_result : Type :=
  | Mapper (mapper : FormProcessMapper)
  | Response (response : list (string * pyval)) (status : Z).

Definition BAD_REQUEST : Z := 400.

Definition bad_request_response : create_result :=
  Response [("type", PStr "Bad Request Error");
            ("message", PStr "Invalid application request passed")]
           BAD_REQUEST.

(** The assignments of the [try] block, on a fresh [FormProcessMapper()]. *)
Definition new_mapper (mapper_info : gmap string pyval)
    : result (gmap string pyval) :=
  let mapper : gmap string pyval := ∅ in
  v ← getitem mapper_info "form_id";
  let mapper := <["form_id" := v]> mapper in
  v ← getitem mapper_info "form_name";
  let mapper := <["form_name" := v]> mapper in
  v ← getitem mapper_info "form_type";
  let mapper := <["form_type" := v]> mapper in
  v ← getitem mapper_info "parent_form_id";
  let mapper := <["parent_form_id" := v]> mapper in
  let mapper := <["process_key" := dict_get mapper_info "process_key"]> mapper in
  let mapper := <["process_name" := dict_get mapper_info "process_name"]> mapper in
  let mapper := <["status" := dict_get mapper_info "status"]> mapper in
  let mapper := <["comments" := dict_get mapper_info "comments"]> mapper in
  v ← getitem mapper_info "created_by";
  let mapper := <["created_by" := v]> mapper in
  let mapper := <["tenant" := dict_get mapper_info "tenant"]> mapper in
  let mapper := <["process_tenant" := dict_get mapper_info "process_tenant"]> mapper in
  let mapper := <["is_anonymous" := dict_get mapper_info "is_anonymous"]> mapper in
  let mapper := <["task_variable" := dict_get mapper_info "task_variable"]> mapper in
  let mapper := <["version" := dict_get mapper_info "version"]> mapper in
  let mapper := <["description" := dict_get mapper_info "description"]> mapper in
  mret mapper.

(** The [try] block: [Some] at its [return mapper], [None] when the bag is
    empty and the block falls through. *)
Definition try_create (mapper_info : gmap string pyval) (t : Table)
    : result (option (FormProcessMapper * Table)) :=
  if dict_truthy mapper_info then
    mapper ← new_mapper mapper_info;
    saved ← save mapper t;
    mret (Some saved)
  else
    mret None.

Definition create_from_dict (mapper_info : gmap string pyval) (w : World)
    : result create_result * World :=
  match try_create mapper_info (db w) with
  | Return (Some (mapper, t')) =>
      (Return (Mapper mapper), {| db := t'; log := log w |})
  | Return None =>
      (Return bad_request_response, w)
  | Raise err =>
      (* except Exception as err: current_app.logger.critical(err) *)
      (Return bad_request_response, {| db := db w; log := log w ++ [err] |})
  end.

(** *** update, mark_inactive, mark_unpublished *)

(** The columns that the class declares itself; the four audit columns
    come from the mixins, which also maintain the timestamps. *)
Definition class_columns : list string :=
  ["id"; "form_id"; "form_name"; "form_type"; "parent_form_id";
   "process_key"; "process_name"; "status"; "comments"; "tenant";
   "process_tenant"; "is_anonymous"; "deleted"; "task_variable"; "version";
   "description"].

Definition update_columns : list string :=
  ["form_id"; "form_name"; "form_type"; "form_revision_number";
   "process_key"; "process_name"; "status"; "comments"; "modified_by";
   "is_anonymous"; "task_variable"; "process_tenant"; "description"].

(** The row after [update], and the table after its commit. *)
Definition update (self : FormProcessMapper) (mapper_info : gmap string pyval)
    (t : Table) : result (FormProcessMapper * Table) :=
  self' ← update_from_dict self update_columns mapper_info;
  mret (self', commit self' t).

Definition mark_inactive (self : FormProcessMapper) (t : Table)
    : FormProcessMapper * Table :=
  let self := set_status (Some INACTIVE) self in
  let self := set_deleted (Some true) self in
  (self, commit self t).

Definition mark_unpublished (self : FormProcessMapper) (t : Table)
    : FormProcessMapper * Table :=
  let self := set_status (Some INACTIVE) self in
  (self, commit self t).

(** *** find_all *)

Definition id_desc : ordering := fun a b => id b <=? id a.

Definition find_all (amb : Ambient) (page_number : Z) (limit : Z) (t : Table)
    : list FormProcessMapper :=
  if page_number =? 0 then
    query_all (query_order_by base_query id_desc) t
  else
    paginate (request_page amb) (Some page_number) limit
             (query_order_by base_query id_desc) t.

(** *** filter_conditions *)

(** The loop over [filters.items()], with the list of conditions so far. *)
Fixpoint filter_conditions_loop (filters : list (string * pyval))
    (filter_conditions : list condition) : result (list condition) :=
  match filters with
  | [] => mret filter_conditions
  | (key, value) :: filters' =>
      if truthy value then
        match FILTER_MAPS !! key with
        | Some filter_map =>
            condition ← create_filter_condition
                          (fm_field filter_map) (fm_operator filter_map) value;
            filter_conditions_loop filters' (filter_conditions ++ [condition])
        | None => Raise (KeyError key)
        end
      else
        filter_conditions_loop filters' filter_conditions
  end.

Definition filter_conditions (filters : list (string * pyval)) : result Query :=
  conditions ← filter_conditions_loop filters [];
  mret (match conditions with
        | [] => base_query
        | _ :: _ => query_filter base_query conditions
        end).

(** *** access_filter, tenant_authorization *)

(** [query.with_entities(c1, ..., cn)]: each row becomes the tuple of the
    named columns. *)
Definition col_str (s : string) : pyval := PStr s.
Definition col_opt_str (s : option string) : pyval :=
  match s with Some s => PStr s | None => PNone end.
Definition col_opt_bool (b : option bool) : pyval :=
  match b with Some b => PBool b | None => PNone end.
Definition col_opt_int (z : option Z) : pyval :=
  match z with Some z => PInt z | None => PNone end.

Definition with_entities (columns : list (FormProcessMapper → pyval))
    (r : FormProcessMapper) : list pyval :=
  map (fun c => c r) columns.

(** [getattr(row, key)]: the value of the column of that name, [None] for
    a name that is no column. *)
Definition getattr (key : string) (r : FormProcessMapper) : pyval :=
  if String.eqb key "id" then PInt (id r)
  else if String.eqb key "form_id" then col_str (form_id r)
  else if String.eqb key "form_name" then col_str (form_name r)
  else if String.eqb key "form_type" then col_str (form_type r)
  else if String.eqb key "parent_form_id" then col_str (parent_form_id r)
  else if String.eqb key "process_key" then col_opt_str (process_key r)
  else if String.eqb key "process_name" then col_opt_str (process_name r)
  else if String.eqb key "status" then col_opt_str (status r)
  else if String.eqb key "comments" then col_opt_str (comments r)
  else if String.eqb key "tenant" then col_opt_str (tenant r)
  else if String.eqb key "process_tenant" then col_opt_str (process_tenant r)
  else if String.eqb key "is_anonymous" then col_opt_bool (is_anonymous r)
  else if String.eqb key "deleted" then col_opt_bool (deleted r)
  else if String.eqb key "task_variable" then task_variable r
  else if String.eqb key "version" then PInt (version r)
  else if String.eqb key "description" then col_opt_str (description r)
  else if String.eqb key "created_by" then col_opt_str (created_by r)
  else if String.eqb key "modified_by" then col_opt_str (modified_by r)
  else if String.eqb key "created" then col_opt_int (created r)
  else if String.eqb key "modified" then col_opt_int (modified r)
  else PNone.

Definition status_is (value : string) : condition :=
  fun r => eq_str (status r) value.

Definition tenant_is (tenant_key : string) : condition :=
  fun r => eq_str (tenant r) tenant_key.

Definition not_deleted : condition :=
  fun r => is_false (deleted r).

Definition id_is (value : Z) : condition :=
  fun r => id r =? value.

Definition id_in (values : list Z) : condition :=
  fun r => in_Z (id r) values.

Definition form_id_is (value : string) : condition :=
  fun r => String.eqb (form_id r) value.

Definition version_is (value : Z) : condition :=
  fun r => version r =? value.

Definition form_type_in (values : list string) : condition :=
  fun r => in_str (Some (form_type r)) values.

Definition process_key_in (values : list string) : condition :=
  fun r => in_str (process_key r) values.

(** [tenant == tenant_key], where [tenant_key] may be [None]. *)
Definition tenant_eq (tenant_key : option string) : condition :=
  fun r => eq_opt_str (tenant r) tenant_key.

(** [and_(c1, ..., cn)] *)
Definition and_ (cs : list condition) : condition :=
  holds_all cs.

(** The columns that [with_entities] names. *)
Definition c_id : FormProcessMapper → pyval := fun r => PInt (id r).
Definition c_process_key : FormProcessMapper → pyval :=
  fun r => col_opt_str (process_key r).
Definition c_form_id : FormProcessMapper → pyval := fun r => col_str (form_id r).
Definition c_form_name : FormProcessMapper → pyval :=
  fun r => col_str (form_name r).
Definition c_modified : FormProcessMapper → pyval :=
  fun r => col_opt_int (modified r).
Definition c_status : FormProcessMapper → pyval :=
  fun r => col_opt_str (status r).
Definition c_is_anonymous : FormProcessMapper → pyval :=
  fun r => col_opt_bool (is_anonymous r).
Definition c_form_type : FormProcessMapper → pyval :=
  fun r => col_str (form_type r).
Definition c_created : FormProcessMapper → pyval :=
  fun r => col_opt_int (created r).
Definition c_description : FormProcessMapper → pyval :=
  fun r => col_opt_str (description r).

Definition access_filter (amb : Ambient) (query : pyobj) : result Query :=
  match query with
  | PyOther _ => Raise (TypeError "Query object must be of type Query")
  | PyQuery query =>
      let tenant_key := tenant_key (user amb) in
      let active := query_filter query [status_is ACTIVE] in
      match tenant_key with
      | Some tenant_key => mret (query_filter active [tenant_is tenant_key])
      | None => mret active
      end
  end.

Definition tenant_authorization (amb : Ambient) (query : pyobj) : result Query :=
  let tenant_key := tenant_key (user amb) in
  match query with
  | PyOther _ => Raise (TypeError "Query object must be of type Query")
  | PyQuery tenant_auth_query =>
      match tenant_key with
      | Some tenant_key =>
          mret (query_filter tenant_auth_query [tenant_is tenant_key])
      | None => mret tenant_auth_query
      end
  end.

(** *** get_latest_form_mapper_ids *)

(** [func.max(column)] over the rows of one group. *)
Definition sql_max (zs : list Z) : option Z :=
  foldr (fun z acc => Some (match acc with Some m => Z.max z m | None => z end))
        None zs.

Definition group_rows (parent : string) (t : Table) : list FormProcessMapper :=
  List.filter (fun r => String.eqb (parent_form_id r) parent) t.

(** One result tuple [(id, parent_form_id)]. *)
Record latest_id : Type := {
  li_id : Z;
  li_parent_form_id : string
}.

(** GROUP BY [parent_form_id]: one group per distinct value, here in the
    order in which the values first appear in the table. *)
Definition get_latest_form_mapper_ids (t : Table) : list latest_id :=
  omap (fun parent =>
          match sql_max (map id (group_rows parent t)) with
          | Some m => Some {| li_id := m; li_parent_form_id := parent |}
          | None => None
          end)
       (remove_dups (map parent_form_id t)).

(** *** The listing operations *)

(** [[data.id for data in filtered_form_query if data.parent_form_id in form_ids]];
    the test raises when it is evaluated with [form_ids] being [None]. *)
Definition latest_ids_in (filtered_form_query : list latest_id)
    (form_ids : option (list string)) : result (list Z) :=
  match form_ids with
  | Some form_ids =>
      mret (map li_id
              (List.filter
                 (fun data => bool_decide (li_parent_form_id data ∈ form_ids))
                 filtered_form_query))
  | None =>
      match filtered_form_query with
      | [] => mret []
      | _ :: _ => Raise (TypeError "argument of type 'NoneType' is not iterable")
      end
  end.

(** The validated sort, applied when both parts are non-empty. *)
Definition apply_sort (sort_by sort_order : option string) (query : Query)
    : Query :=
  let '(sort_by, sort_order) :=
    validate_sort_order_and_order_by sort_by sort_order in
  match sort_by, sort_order with
  | Some by_, Some order_ =>
      if opt_truthy sort_by && opt_truthy sort_order
      then query_order_by query (text_order by_ order_)
      else query
  | _, _ => query
  end.

(** [total_count = query.count()], then
    [limit = total_count if limit is None else limit] and
    [query.paginate(page=page_number, per_page=limit, error_out=False)]:
    the rows of the page and the total count. *)
Definition count_and_paginate (amb : Ambient) (page_number limit : option Z)
    (query : Query) (t : Table) : list FormProcessMapper * Z :=
  let total_count := query_count query t in
  let limit := match limit with None => total_count | Some l => l end in
  (paginate (request_page amb) page_number limit query t, total_count).

(** The column lists of the three listings. *)
Definition find_all_forms_entities : list (FormProcessMapper → pyval) :=
  [c_id; c_process_key; c_form_id; c_form_name; c_modified; c_status;
   c_is_anonymous; c_form_type; c_created; c_description].

Definition find_all_active_by_formid_entities
    : list (FormProcessMapper → pyval) :=
  [c_id; c_process_key; c_form_id; c_form_name; c_modified; c_description].

Definition find_all_active_entities : list (FormProcessMapper → pyval) :=
  [c_id; c_process_key; c_form_id; c_form_name].

(** The query of [find_all_forms], up to its ordering. *)
Definition find_all_forms_query (amb : Ambient)
    (sort_by sort_order : option string)
    (form_ids : option (list string)) (is_active : option bool)
    (form_type : option (list string)) (filters : list (string * pyval))
    (t : Table) : result Query :=
  let filtered_form_query := get_latest_form_mapper_ids t in
  filtered_form_ids ← latest_ids_in filtered_form_query form_ids;
  query ← filter_conditions filters;
  let query :=
    query_filter query
      [and_ [not_deleted]; id_in filtered_form_ids] in
  let query :=
    if list_truthy form_type
    then query_filter query [form_type_in (default [] form_type)]
    else query in
  let query :=
    match is_active with
    | Some is_active =>
        let value := if is_active then ACTIVE else INACTIVE in
        query_filter query [status_is value]
    | None => query
    end in
  query ← tenant_authorization amb (PyQuery query);
  mret (apply_sort sort_by sort_order query).

(** The rows of the page and the total count. *)
Definition find_all_forms_rows (amb : Ambient)
    (page_number limit : option Z) (sort_by sort_order : option string)
    (form_ids : option (list string)) (is_active : option bool)
    (form_type : option (list string)) (filters : list (string * pyval))
    (t : Table) : result (list FormProcessMapper * Z) :=
  query ← find_all_forms_query amb sort_by sort_order form_ids is_active
                               form_type filters t;
  mret (count_and_paginate amb page_number limit query t).

Definition find_all_forms (amb : Ambient)
    (page_number limit : option Z) (sort_by sort_order : option string)
    (form_ids : option (list string)) (is_active : option bool)
    (form_type : option (list string)) (filters : list (string * pyval))
    (t : Table) : result (list (list pyval) * Z) :=
  '(rows, total_count) ←
    find_all_forms_rows amb page_number limit sort_by sort_order
                        form_ids is_active form_type filters t;
  mret (map (with_entities find_all_forms_entities) rows, total_count).

Definition find_all_active_by_formid_query (amb : Ambient)
    (sort_by sort_order : option string)
    (form_ids : option (list string)) (filters : list (string * pyval))
    (t : Table) : result Query :=
  let filtered_form_query := get_latest_form_mapper_ids t in
  filtered_form_ids ← latest_ids_in filtered_form_query form_ids;
  query ← filter_conditions filters;
  let query :=
    query_filter query [id_in filtered_form_ids] in
  query ← access_filter amb (PyQuery query);
  mret (apply_sort sort_by sort_order query).

Definition find_all_active_by_formid_rows (amb : Ambient)
    (page_number limit : option Z) (sort_by sort_order : option string)
    (form_ids : option (list string)) (filters : list (string * pyval))
    (t : Table) : result (list FormProcessMapper * Z) :=
  query ← find_all_active_by_formid_query amb sort_by sort_order form_ids
                                          filters t;
  mret (count_and_paginate amb page_number limit query t).

Definition find_all_active_by_formid (amb : Ambient)
    (page_number limit : option Z) (sort_by sort_order : option string)
    (form_ids : option (list string)) (filters : list (string * pyval))
    (t : Table) : result (list (list pyval) * Z) :=
  '(rows, total_count) ←
    find_all_active_by_formid_rows amb page_number limit sort_by sort_order
                                   form_ids filters t;
  mret (map (with_entities find_all_active_by_formid_entities) rows,
        total_count).

Definition find_all_active_query (amb : Ambient)
    (sort_by sort_order : option string)
    (process_key : option (list string)) (filters : list (string * pyval))
    : result Query :=
  query ← filter_conditions filters;
  let query :=
    match process_key with
    | Some process_key => query_filter query [process_key_in process_key]
    | None => query
    end in
  query ← access_filter amb (PyQuery query);
  mret (apply_sort sort_by sort_order query).

Definition find_all_active_rows (amb : Ambient)
    (page_number limit : option Z) (sort_by sort_order : option string)
    (process_key : option (list string)) (filters : list (string * pyval))
    (t : Table) : result (list FormProcessMapper * Z) :=
  query ← find_all_active_query amb sort_by sort_order process_key filters;
  mret (count_and_paginate amb page_number limit query t).

Definition find_all_active (amb : Ambient)
    (page_number limit : option Z) (sort_by sort_order : option string)
    (process_key : option (list string)) (filters : list (string * pyval))
    (t : Table) : result (list (list pyval) * Z) :=
  '(rows, total_count) ←
    find_all_active_rows amb page_number limit sort_by sort_order
                         process_key filters t;
  mret (map (with_entities find_all_active_entities) rows, total_count).

(** *** Counts and point lookups *)

Definition find_all_count (t : Table) : Z :=
  query_count (query_filter base_query [status_is ACTIVE]) t.


Definition find_form_by_id (form_process_mapper_id : Z) (t : Table)
    : option FormProcessMapper :=
  query_first
    (query_filter base_query [id_is form_process_mapper_id]) t.

(** [desc(FormProcessMapper.version)] *)
Definition version_desc : ordering := fun a b => version b <=? version a.

Definition find_form_by_form_id (form_id : string) (t : Table)
    : option FormProcessMapper :=
  query_first
    (query_limit
       (query_order_by
          (query_filter base_query [form_id_is form_id])
          version_desc)
       1)
    t.

Definition find_mapper_by_form_id_and_version (amb : Ambient)
    (form_id : string) (version : Z) (t : Table) : option FormProcessMapper :=
  let tenant_key := tenant_key (user amb) in
  query_first
    (query_filter base_query
       [and_ [form_id_is form_id; version_is version; tenant_eq tenant_key]])
    t.

(** *** The public operations that write

    One call of [create_from_dict], or of [update], [mark_inactive] or
    [mark_unpublished] on a row loaded from the table.  The lookups and
    listings do not change the state. *)
Inductive step : World → World → Prop :=
  | step_create_from_dict mapper_info w :
      step w (create_from_dict mapper_info w).2
  | step_update self mapper_info w self' t' :
      self ∈ db w →
      update self mapper_info (db w) = Return (self', t') →
      step w {| db := t'; log := log w |}
  | step_update_raises self mapper_info w e :
      self ∈ db w →
      update self mapper_info (db w) = Raise e →
      step w w
  | step_mark_inactive self w :
      self ∈ db w →
      step w {| db := (mark_inactive self (db w)).2; log := log w |}
  | step_mark_unpublished self w :
      self ∈ db w →
      step w {| db := (mark_unpublished self (db w)).2; log := log w |}.

(** The row with primary key [i] is in the table, and is deleted. *)
Definition deleted_in (i : Z) (t : Table) : Prop :=
  i ∈ map id t ∧ ∀ r, r ∈ t → id r = i → deleted r = Some true.

(** [save] inserts: the table after it is the table before it with the
    persisted row added, under a primary key that no row had. *)
Definition save_inserts : Prop :=
  ∀ mapper t row t',
    save mapper t = Return (row, t') →
    t' = t ++ [row] ∧ id row ∉ map id t.

End Model.

(** ** A concrete set of collaborators

    Used to run the model on examples: the status values of the
    enumeration, a filter table with two entries, a sort validator that
    accepts [id] and [form_name] in either direction, and a [save] that
    inserts a row the way the schema prescribes (required columns present,
    defaults for [version] and [deleted], a fresh primary key, the unique
    constraint on form, version and tenant). *)
Module Demo.

Definition next_id (t : Table) : Z :=
  1 + foldr Z.max 0 (map id t).

Definition violates_form_version_uc (r : FormProcessMapper) (t : Table) : bool :=
  existsb (fun r' => String.eqb (form_id r') (form_id r)
                     && (version r' =? version r)
                     && eq_opt_str (tenant r') (tenant r)
                     && bool_decide (is_Some (tenant r)))
          t.

Definition insert_row (mapper : gmap string pyval) (t : Table)
    : result (FormProcessMapper * Table) :=
  v_form_id ← as_str "form_id" (dict_get mapper "form_id");
  v_form_name ← as_str "form_name" (dict_get mapper "form_name");
  v_form_type ← as_str "form_type" (dict_get mapper "form_type");
  v_parent ← as_str "parent_form_id" (dict_get mapper "parent_form_id");
  v_process_key ← as_opt_str "process_key" (dict_get mapper "process_key");
  v_process_name ← as_opt_str "process_name" (dict_get mapper "process_name");
  v_status ← as_opt_str "status" (dict_get mapper "status");
  v_comments ← as_opt_str "comments" (dict_get mapper "comments");
  v_created_by ← as_opt_str "created_by" (dict_get mapper "created_by");
  v_tenant ← as_opt_str "tenant" (dict_get mapper "tenant");
  v_process_tenant ← as_opt_str "process_tenant" (dict_get mapper "process_tenant");
  v_is_anonymous ← as_opt_bool "is_anonymous" (dict_get mapper "is_anonymous");
  v_version ← as_opt_int "version" (dict_get mapper "version");
  v_description ← as_opt_str "description" (dict_get mapper "description");
  let row :=
    {| id := next_id t; form_id := v_form_id; form_name := v_form_name;
       form_type := v_form_type; parent_form_id := v_parent;
       process_key := v_process_key; process_name := v_process_name;
       status := v_status; comments := v_comments; tenant := v_tenant;
       process_tenant := v_process_tenant; is_anonymous := v_is_anonymous;
       deleted := Some false;
       task_variable := dict_get mapper "task_variable";
       version := default 1 v_version; description := v_description;
       created_by := v_created_by; modified_by := None;
       created := None; modified := None |} in
  if violates_form_version_uc row t
  then Raise (IntegrityError "_form_version_uc")
  else mret (row, t ++ [row]).

Definition by_column (sort_by sort_order : string) : ordering :=
  fun a b =>
    let le :=
      if String.eqb sort_by "form_name"
      then bool_decide (String.leb (form_name a) (form_name b) = true)
      else id a <=? id b in
    let ge :=
      if String.eqb sort_by "form_name"
      then bool_decide (String.leb (form_name b) (form_name a) = true)
      else id b <=? id a in
    if String.eqb sort_order "desc" then ge else le.

Definition collaborators : Collaborators := {|
  ACTIVE := "active";
  INACTIVE := "inactive";
  FILTER_MAPS :=
    <["form_name" := {| fm_field := "form_name"; fm_operator := "eq" |}]>
      (<["form_type" := {| fm_field := "form_type"; fm_operator := "eq" |}]> ∅);
  create_filter_condition := fun column_name operator value =>
    match value with
    | PStr s =>
        if String.eqb column_name "form_name"
        then Return (fun r => String.eqb (form_name r) s)
        else Return (fun r => String.eqb (form_type r) s)
    | _ => Raise (TypeError "filter value")
    end;
  validate_sort_order_and_order_by := fun sort_by sort_order =>
    match sort_by, sort_order with
    | Some b, Some o =>
        if (String.eqb b "id" || String.eqb b "form_name")
           && (String.eqb o "asc" || String.eqb o "desc")
        then (Some b, Some o) else (None, None)
    | _, _ => (None, None)
    end;
  text_order := by_column;
  save := insert_row
|}.

(** A table of three rows: two versions of one form without tenant and
    one form of tenant [T1]. *)
Definition row (i : Z) (form parent : string) (ver : Z)
    (tnt : option string) (st : string) : FormProcessMapper :=
  {| id := i; form_id := form; form_name := "Form " +:+ form;
     form_type := "form"; parent_form_id := parent;
     process_key := Some "Defaultflow"; process_name := Some "Default Flow";
     status := Some st; comments := None; tenant := tnt;
     process_tenant := None; is_anonymous := Some false;
     deleted := Some false; task_variable := PNone; version := ver;
     description := None; created_by := Some "admin"; modified_by := None;
     created := None; modified := None |}.

Definition table : Table :=
  [ row 1 "F" "P" 1 None "active";
    row 2 "F" "P" 2 None "active";
    row 3 "G" "Q" 1 (Some "T1") "active" ].

Definition bag : gmap string pyval :=
  list_to_map
    [ ("form_id", PStr "H"); ("form_name", PStr "Form H");
      ("form_type", PStr "form"); ("parent_form_id", PStr "R");
      ("created_by", PStr "admin"); ("status", PStr "active") ].

Definition caller (tnt : option string) : Ambient :=
  {| user := {| tenant_key := tnt |}; request_page := 1 |}.

End Demo.

(** ** Names used by [create_from_dict] *)

(** The keys that [create_from_dict] reads with [mapper_info[key]], in the
    order of the assignments. *)
Definition required_keys : list string :=
  ["form_id"; "form_name"; "form_type"; "parent_form_id"; "created_by"].

(** The attributes that [create_from_dict] assigns. *)
Definition created_attributes : list string :=
  ["form_id"; "form_name"; "form_type"; "parent_form_id"; "process_key";
   "process_name"; "status"; "comments"; "created_by"; "tenant";
   "process_tenant"; "is_anonymous"; "task_variable"; "version";
   "description"].

(** The first required key that the bag does not have. *)
Definition first_missing_key (mapper_info : gmap string pyval) : option string :=
  List.find (fun key => bool_decide (mapper_info !! key = None)) required_keys.

(** The names of all columns: those of the class and those of the audit
    mixins. *)
Definition column_names : list string :=
  ["id"; "form_id"; "form_name"; "form_type"; "parent_form_id";
   "process_key"; "process_name"; "status"; "comments"; "tenant";
   "process_tenant"; "is_anonymous"; "deleted"; "task_variable"; "version";
   "description"; "created_by"; "modified_by"; "created"; "modified"].

(** Descending order of the primary key. *)
Definition id_descending (l : list FormProcessMapper) : Prop :=
  Sorted (fun a b => id b ≤ id a) l.

(** * Properties *)

(** ** Running queries *)

Lemma elem_of_List_filter {A} (f : A → bool) (l : list A) (x : A) :
  x ∈ List.filter f l ↔ x ∈ l ∧ f x = true.
Proof. rewrite !list_elem_of_In. apply filter_In. Qed.

Lemma insert_sorted_perm {A} (le : A → A → bool) (x : A) (l : list A) :
  insert_sorted le x l ≡ₚ x :: l.
Proof.
  induction l as [|y l IH]; simpl; [done|].
  destruct (le x y); [done|].
  rewrite IH. apply Permutation_swap.
Qed.

Lemma sort_rows_perm {A} (le : A → A → bool) (l : list A) :
  sort_rows le l ≡ₚ l.
Proof.
  induction l as [|x l IH]; simpl; [done|].
  rewrite insert_sorted_perm. by rewrite IH.
Qed.

Lemma order_rows_perm {A} (o : option (A → A → bool)) (l : list A) :
  order_rows o l ≡ₚ l.
Proof. destruct o; simpl; [apply sort_rows_perm | done]. Qed.

Lemma elem_of_limit_rows {A} (n : option nat) (l : list A) (x : A) :
  x ∈ limit_rows n l → x ∈ l.
Proof.
  destruct n as [k|]; simpl; [|done].
  apply subseteq_take.
Qed.

Lemma elem_of_matching (q : Query) (t : Table) (r : FormProcessMapper) :
  r ∈ matching q t ↔ r ∈ t ∧ holds_all (q_filter q) r = true.
Proof.
  unfold matching. rewrite order_rows_perm. apply elem_of_List_filter.
Qed.

Lemma elem_of_query_all (q : Query) (t : Table) (r : FormProcessMapper) :
  r ∈ query_all q t → r ∈ matching q t.
Proof.
  unfold query_all. intros Hr. apply elem_of_limit_rows in Hr.
  by apply subseteq_drop in Hr.
Qed.

Lemma elem_of_paginate request_page page per_page (q : Query) (t : Table)
    (r : FormProcessMapper) :
  r ∈ paginate request_page page per_page q t → r ∈ matching q t.
Proof. unfold paginate. intros Hr. by apply elem_of_query_all in Hr. Qed.

Lemma holds_all_app (cs1 cs2 : list condition) (r : FormProcessMapper) :
  holds_all (cs1 ++ cs2) r = holds_all cs1 r && holds_all cs2 r.
Proof. unfold holds_all. apply forallb_app. Qed.

Lemma query_first_elem_of (q : Query) (t : Table) (r : FormProcessMapper) :
  query_first q t = Some r → r ∈ matching q t.
Proof.
  unfold query_first. intros Hr. apply elem_of_query_all.
  destruct (query_all q t); simplify_eq/=. left.
Qed.

Lemma eq_str_true (c : option string) (v : string) :
  eq_str c v = true ↔ c = Some v.
Proof.
  destruct c as [s|]; simpl; [|naive_solver].
  rewrite String.eqb_eq. naive_solver.
Qed.

Lemma eq_opt_str_true (c v : option string) :
  eq_opt_str c v = true ↔ c = v.
Proof.
  destruct v as [s|]; simpl; [apply eq_str_true|].
  destruct c; naive_solver.
Qed.

Section Properties.
Context `{Collaborators}.

(** ** create_from_dict *)

Lemma new_mapper_raises (mapper_info : gmap string pyval) (err : exn) :
  new_mapper mapper_info = Raise err →
  ∃ key, err = KeyError key ∧ mapper_info !! key = None ∧
         key ∈ ["form_id"; "form_name"; "form_type"; "parent_form_id";
                "created_by"].
Proof.
  unfold new_mapper, getitem. intros Hn.
  repeat match type of Hn with
  | context [mapper_info !! ?k] =>
      let E := fresh "E" in
      destruct (mapper_info !! k) eqn:E; simpl in Hn;
      [| injection Hn as <-; exists k; split_and!; [done|done|set_solver] ]
  end.
  discriminate.
Qed.

Lemma try_create_raises (mapper_info : gmap string pyval) (t : Table) (err : exn) :
  try_create mapper_info t = Raise err ↔
  dict_truthy mapper_info = true ∧
  (new_mapper mapper_info = Raise err ∨
   ∃ mapper, new_mapper mapper_info = Return mapper ∧ save mapper t = Raise err).
Proof.
  unfold try_create. destruct (dict_truthy mapper_info);
    [|split; [discriminate | intros [? _]; discriminate]].
  destruct (new_mapper mapper_info) as [mapper|e]; simpl.
  - destruct (save mapper t) as [saved|e] eqn:Hs; simpl.
    + split; [done|]. intros [_ [Hn|(m & Hn & Hs')]]; congruence.
    + split.
      * intros [= <-]. split; [done|]. right. by exists mapper.
      * intros [_ [Hn|(m & Hn & Hs')]]; congruence.
  - split.
    + intros [= <-]. by split; [|left].
    + intros [_ [Hn|(m & Hn & Hs')]]; congruence.
Qed.

(** C1.  [create_from_dict] never propagates an exception: for every field
    bag and every state it returns a value.  When the construction of the
    mapper or its persistence raises [err], the error is logged, the table
    is left as it was and the result is the fixed pair of the
    "Bad Request Error" body and status 400, whatever [err] is.  When both
    succeed the result is the persisted row. *)
Theorem create_from_dict_swallows_failures
    (mapper_info : gmap string pyval) (w : World) :
  (∃ v w', create_from_dict mapper_info w = (Return v, w')) ∧
  (∀ err,
     dict_truthy mapper_info = true →
     (new_mapper mapper_info = Raise err ∨
      ∃ mapper, new_mapper mapper_info = Return mapper ∧
                save mapper (db w) = Raise err) →
     create_from_dict mapper_info w =
       (Return (Response [("type", PStr "Bad Request Error");
                          ("message", PStr "Invalid application request passed")]
                         400),
        {| db := db w; log := log w ++ [err] |})) ∧
  (∀ mapper row t',
     dict_truthy mapper_info = true →
     new_mapper mapper_info = Return mapper →
     save mapper (db w) = Return (row, t') →
     create_from_dict mapper_info w =
       (Return (Mapper row), {| db := t'; log := log w |})).
Proof.
  split_and!.
  - unfold create_from_dict.
    destruct (try_create mapper_info (db w)) as [[[m t']|]|e]; eauto.
  - intros err Ht Hf.
    assert (try_create mapper_info (db w) = Raise err) as Hr
      by (apply try_create_raises; done).
    unfold create_from_dict. by rewrite Hr.
  - intros mapper row t' Ht Hn Hs.
    unfold create_from_dict, try_create. rewrite Ht, Hn. simpl.
    by rewrite Hs.
Qed.

(** ** Tenant scoping *)

Lemma bind_Return {A B} (m : result A) (f : A → result B) (b : B) :
  m ≫= f = Return b ↔ ∃ a, m = Return a ∧ f a = Return b.
Proof.
  destruct m as [a|e]; simpl.
  - split; [by exists a | by intros (a' & [= <-] & ?)].
  - split; [done | by intros (a' & ? & ?)].
Qed.

Lemma Return_inj {A} (x y : A) : mret x = Return y → x = y.
Proof. by intros [= ->]. Qed.

Lemma apply_sort_filter (sort_by sort_order : option string) (q : Query) :
  q_filter (apply_sort sort_by sort_order q) = q_filter q.
Proof.
  unfold apply_sort.
  destruct (validate_sort_order_and_order_by sort_by sort_order) as [[b|] [o|]];
    try done.
  by destruct (opt_truthy (Some b) && opt_truthy (Some o)).
Qed.

Lemma count_and_paginate_rows amb page_number limit (q : Query) (t : Table)
    rows n (r : FormProcessMapper) :
  count_and_paginate amb page_number limit q t = (rows, n) →
  r ∈ rows → r ∈ t ∧ holds_all (q_filter q) r = true.
Proof.
  unfold count_and_paginate. intros [= <- _] Hr.
  apply elem_of_paginate in Hr. by apply elem_of_matching.
Qed.

Lemma access_filter_filter amb (q q' : Query) :
  access_filter amb (PyQuery q) = Return q' →
  q_order q' = q_order q ∧
  q_filter q' =
    q_filter q ++ [status_is ACTIVE] ++
    match tenant_key (user amb) with
    | Some tenant_key => [tenant_is tenant_key]
    | None => []
    end.
Proof.
  unfold access_filter. destruct (tenant_key (user amb)); intros [= <-]; simpl.
  - by rewrite <- app_assoc.
  - done.
Qed.

Lemma tenant_authorization_filter amb (q q' : Query) :
  tenant_authorization amb (PyQuery q) = Return q' →
  q_order q' = q_order q ∧
  q_filter q' =
    q_filter q ++
    match tenant_key (user amb) with
    | Some tenant_key => [tenant_is tenant_key]
    | None => []
    end.
Proof.
  unfold tenant_authorization.
  destruct (tenant_key (user amb)); intros [= <-]; simpl; [done|].
  by rewrite app_nil_r.
Qed.

Lemma holds_tenant_is cs T1 (r : FormProcessMapper) :
  holds_all (cs ++ [tenant_is T1]) r = true → tenant r = Some T1.
Proof.
  rewrite holds_all_app, andb_true_iff. intros [_ Hr].
  simpl in Hr. rewrite andb_true_r in Hr. by apply eq_str_true.
Qed.

(** Each listing runs [count_and_paginate] on the query it has built. *)
Lemma find_all_forms_rows_inv amb page_number limit sort_by sort_order
    form_ids is_active form_type filters (t : Table) rows n :
  find_all_forms_rows amb page_number limit sort_by sort_order form_ids
                      is_active form_type filters t = Return (rows, n) →
  ∃ q, find_all_forms_query amb sort_by sort_order form_ids is_active
                            form_type filters t = Return q ∧
       count_and_paginate amb page_number limit q t = (rows, n).
Proof.
  unfold find_all_forms_rows. intros Hf.
  apply bind_Return in Hf as (q & Hq & Hf).
  apply Return_inj in Hf. by exists q.
Qed.

Lemma find_all_active_by_formid_rows_inv amb page_number limit sort_by
    sort_order form_ids filters (t : Table) rows n :
  find_all_active_by_formid_rows amb page_number limit sort_by sort_order
                                 form_ids filters t = Return (rows, n) →
  ∃ q, find_all_active_by_formid_query amb sort_by sort_order form_ids
                                       filters t = Return q ∧
       count_and_paginate amb page_number limit q t = (rows, n).
Proof.
  unfold find_all_active_by_formid_rows. intros Hf.
  apply bind_Return in Hf as (q & Hq & Hf).
  apply Return_inj in Hf. by exists q.
Qed.

Lemma find_all_active_rows_inv amb page_number limit sort_by sort_order
    process_key filters (t : Table) rows n :
  find_all_active_rows amb page_number limit sort_by sort_order
                       process_key filters t = Return (rows, n) →
  ∃ q, find_all_active_query amb sort_by sort_order process_key filters
         = Return q ∧
       count_and_paginate amb page_number limit q t = (rows, n).
Proof.
  unfold find_all_active_rows. intros Hf.
  apply bind_Return in Hf as (q & Hq & Hf).
  apply Return_inj in Hf. by exists q.
Qed.

(** The conditions of the three queries. *)
Lemma find_all_forms_query_inv amb sort_by sort_order form_ids is_active
    form_type filters (t : Table) q :
  find_all_forms_query amb sort_by sort_order form_ids is_active form_type
                       filters t = Return q →
  ∃ q0 ids q1,
    filter_conditions filters = Return q0 ∧
    latest_ids_in (get_latest_form_mapper_ids t) form_ids = Return ids ∧
    tenant_authorization amb
      (PyQuery
         (let q := query_filter q0 [and_ [not_deleted]; id_in ids] in
          let q := if list_truthy form_type
                   then query_filter q [form_type_in (default [] form_type)]
                   else q in
          match is_active with
          | Some a => query_filter q [status_is (if a then ACTIVE else INACTIVE)]
          | None => q
          end)) = Return q1 ∧
    q = apply_sort sort_by sort_order q1.
Proof.
  unfold find_all_forms_query. intros Hf.
  apply bind_Return in Hf as (ids & Hids & Hf).
  apply bind_Return in Hf as (q0 & Hq0 & Hf).
  apply bind_Return in Hf as (q1 & Hq1 & Hf).
  apply Return_inj in Hf. by exists q0, ids, q1.
Qed.

Lemma find_all_active_by_formid_query_inv amb sort_by sort_order form_ids
    filters (t : Table) q :
  find_all_active_by_formid_query amb sort_by sort_order form_ids filters t
    = Return q →
  ∃ q0 ids q1,
    filter_conditions filters = Return q0 ∧
    latest_ids_in (get_latest_form_mapper_ids t) form_ids = Return ids ∧
    access_filter amb (PyQuery (query_filter q0 [id_in ids])) = Return q1 ∧
    q = apply_sort sort_by sort_order q1.
Proof.
  unfold find_all_active_by_formid_query. intros Hf.
  apply bind_Return in Hf as (ids & Hids & Hf).
  apply bind_Return in Hf as (q0 & Hq0 & Hf).
  apply bind_Return in Hf as (q1 & Hq1 & Hf).
  apply Return_inj in Hf. by exists q0, ids, q1.
Qed.

Lemma find_all_active_query_inv amb sort_by sort_order process_key filters q :
  find_all_active_query amb sort_by sort_order process_key filters = Return q →
  ∃ q0 q1,
    filter_conditions filters = Return q0 ∧
    access_filter amb
      (PyQuery (match process_key with
                | Some keys => query_filter q0 [process_key_in keys]
                | None => q0
                end)) = Return q1 ∧
    q = apply_sort sort_by sort_order q1.
Proof.
  unfold find_all_active_query. intros Hf.
  apply bind_Return in Hf as (q0 & Hq0 & Hf).
  apply bind_Return in Hf as (q1 & Hq1 & Hf).
  apply Return_inj in Hf. by exists q0, q1.
Qed.

(** With a tenant in the context, the rows behind every page of the three
    listings are rows of the table of that tenant. *)
Lemma find_all_forms_rows_tenant amb T1 page_number limit sort_by sort_order
    form_ids is_active form_type filters (t : Table) rows n r :
  tenant_key (user amb) = Some T1 →
  find_all_forms_rows amb page_number limit sort_by sort_order form_ids
                      is_active form_type filters t = Return (rows, n) →
  r ∈ rows → r ∈ t ∧ tenant r = Some T1.
Proof.
  intros Htk Hf Hr.
  apply find_all_forms_rows_inv in Hf as (q & Hq & Hp).
  apply find_all_forms_query_inv in Hq as (q0 & ids & q1 & _ & _ & Hq & ->).
  eapply count_and_paginate_rows in Hp as [Hin Hh]; [|done].
  split; [done|]. rewrite apply_sort_filter in Hh.
  apply tenant_authorization_filter in Hq as [_ Hq].
  rewrite Hq, Htk in Hh. by apply holds_tenant_is in Hh.
Qed.

Lemma find_all_active_by_formid_rows_tenant amb T1 page_number limit sort_by
    sort_order form_ids filters (t : Table) rows n r :
  tenant_key (user amb) = Some T1 →
  find_all_active_by_formid_rows amb page_number limit sort_by sort_order
                                 form_ids filters t = Return (rows, n) →
  r ∈ rows → r ∈ t ∧ tenant r = Some T1.
Proof.
  intros Htk Hf Hr.
  apply find_all_active_by_formid_rows_inv in Hf as (q & Hq & Hp).
  apply find_all_active_by_formid_query_inv in Hq
    as (q0 & ids & q1 & _ & _ & Hq & ->).
  eapply count_and_paginate_rows in Hp as [Hin Hh]; [|done].
  split; [done|]. rewrite apply_sort_filter in Hh.
  apply access_filter_filter in Hq as [_ Hq].
  rewrite Hq, Htk, app_assoc in Hh. by apply holds_tenant_is in Hh.
Qed.

Lemma find_all_active_rows_tenant amb T1 page_number limit sort_by sort_order
    process_key filters (t : Table) rows n r :
  tenant_key (user amb) = Some T1 →
  find_all_active_rows amb page_number limit sort_by sort_order
                       process_key filters t = Return (rows, n) →
  r ∈ rows → r ∈ t ∧ tenant r = Some T1.
Proof.
  intros Htk Hf Hr.
  apply find_all_active_rows_inv in Hf as (q & Hq & Hp).
  apply find_all_active_query_inv in Hq as (q0 & q1 & _ & Hq & ->).
  eapply count_and_paginate_rows in Hp as [Hin Hh]; [|done].
  split; [done|]. rewrite apply_sort_filter in Hh.
  apply access_filter_filter in Hq as [_ Hq].
  rewrite Hq, Htk, app_assoc in Hh. by apply holds_tenant_is in Hh.
Qed.

Lemma find_all_forms_items amb page_number limit sort_by sort_order
    form_ids is_active form_type filters (t : Table) items n :
  find_all_forms amb page_number limit sort_by sort_order form_ids
                 is_active form_type filters t = Return (items, n) →
  ∃ rows,
    find_all_forms_rows amb page_number limit sort_by sort_order form_ids
                        is_active form_type filters t = Return (rows, n) ∧
    items = map (with_entities find_all_forms_entities) rows.
Proof.
  unfold find_all_forms. intros Hf.
  apply bind_Return in Hf as ([rows n'] & Hrows & Hf).
  apply Return_inj in Hf. injection Hf as <- <-. by exists rows.
Qed.

Lemma find_all_active_by_formid_items amb page_number limit sort_by
    sort_order form_ids filters (t : Table) items n :
  find_all_active_by_formid amb page_number limit sort_by sort_order
                            form_ids filters t = Return (items, n) →
  ∃ rows,
    find_all_active_by_formid_rows amb page_number limit sort_by sort_order
                                   form_ids filters t = Return (rows, n) ∧
    items = map (with_entities find_all_active_by_formid_entities) rows.
Proof.
  unfold find_all_active_by_formid. intros Hf.
  apply bind_Return in Hf as ([rows n'] & Hrows & Hf).
  apply Return_inj in Hf. injection Hf as <- <-. by exists rows.
Qed.

Lemma find_all_active_items amb page_number limit sort_by sort_order
    process_key filters (t : Table) items n :
  find_all_active amb page_number limit sort_by sort_order
                  process_key filters t = Return (items, n) →
  ∃ rows,
    find_all_active_rows amb page_number limit sort_by sort_order
                         process_key filters t = Return (rows, n) ∧
    items = map (with_entities find_all_active_entities) rows.
Proof.
  unfold find_all_active. intros Hf.
  apply bind_Return in Hf as ([rows n'] & Hrows & Hf).
  apply Return_inj in Hf. injection Hf as <- <-. by exists rows.
Qed.

(** C2.  Tenant isolation.  For a caller whose tenant context is [T1], a
    query that went through [access_filter] or [tenant_authorization]
    gives no row of another tenant, and every item that [find_all_forms],
    [find_all_active_by_formid] or [find_all_active] returns is the
    projection of a row of the table whose tenant, when it is not null, is
    [T1]. *)
Theorem tenant_isolation (amb : Ambient) (T1 : string) :
  tenant_key (user amb) = Some T1 →
  (∀ q q' (t : Table) r T2,
     access_filter amb (PyQuery q) = Return q' ∨
     tenant_authorization amb (PyQuery q) = Return q' →
     r ∈ query_all q' t → tenant r = Some T2 → T2 = T1) ∧
  (∀ page_number limit sort_by sort_order form_ids is_active form_type
     filters (t : Table) items n item,
     find_all_forms amb page_number limit sort_by sort_order form_ids
                    is_active form_type filters t = Return (items, n) →
     item ∈ items →
     ∃ r, r ∈ t ∧ item = with_entities find_all_forms_entities r ∧
          ∀ T2, tenant r = Some T2 → T2 = T1) ∧
  (∀ page_number limit sort_by sort_order form_ids filters (t : Table)
     items n item,
     find_all_active_by_formid amb page_number limit sort_by sort_order
                               form_ids filters t = Return (items, n) →
     item ∈ items →
     ∃ r, r ∈ t ∧ item = with_entities find_all_active_by_formid_entities r ∧
          ∀ T2, tenant r = Some T2 → T2 = T1) ∧
  (∀ page_number limit sort_by sort_order process_key filters (t : Table)
     items n item,
     find_all_active amb page_number limit sort_by sort_order
                     process_key filters t = Return (items, n) →
     item ∈ items →
     ∃ r, r ∈ t ∧ item = with_entities find_all_active_entities r ∧
          ∀ T2, tenant r = Some T2 → T2 = T1).
Proof.
  intros Htk. split_and!.
  - intros q q' t r T2 Hq Hr HT2.
    apply elem_of_query_all, elem_of_matching in Hr as [_ Hh].
    assert (tenant r = Some T1) as Ht; [|congruence].
    destruct Hq as [Hq|Hq].
    + apply access_filter_filter in Hq as [_ Hq].
      rewrite Hq, Htk, app_assoc in Hh. by apply holds_tenant_is in Hh.
    + apply tenant_authorization_filter in Hq as [_ Hq].
      rewrite Hq, Htk in Hh. by apply holds_tenant_is in Hh.
  - intros ????????? items n item Hf Hi.
    apply find_all_forms_items in Hf as (rows & Hrows & ->).
    apply list_elem_of_fmap in Hi as (r & -> & Hr).
    eapply find_all_forms_rows_tenant in Hrows as [Hin Ht]; [|done..].
    exists r. split_and!; [done..|]. congruence.
  - intros ??????? items n item Hf Hi.
    apply find_all_active_by_formid_items in Hf as (rows & Hrows & ->).
    apply list_elem_of_fmap in Hi as (r & -> & Hr).
    eapply find_all_active_by_formid_rows_tenant in Hrows as [Hin Ht]; [|done..].
    exists r. split_and!; [done..|]. congruence.
  - intros ??????? items n item Hf Hi.
    apply find_all_active_items in Hf as (rows & Hrows & ->).
    apply list_elem_of_fmap in Hi as (r & -> & Hr).
    eapply find_all_active_rows_tenant in Hrows as [Hin Ht]; [|done..].
    exists r. split_and!; [done..|]. congruence.
Qed.

(** C3.  With a tenant [T1] in the context the two helpers add the
    comparison of the tenant column with [T1]: a row is matched after
    [access_filter] exactly when it was matched before, is ACTIVE and has
    tenant [T1], and after [tenant_authorization] exactly when it was
    matched before and has tenant [T1].  A row whose tenant is null is in
    neither result. *)
Theorem tenant_filter_exact (amb : Ambient) (T1 : string) :
  tenant_key (user amb) = Some T1 →
  ∀ (q : Query) (t : Table),
    (∃ q', access_filter amb (PyQuery q) = Return q' ∧
       (∀ r, r ∈ matching q' t ↔
             r ∈ matching q t ∧ status r = Some ACTIVE ∧ tenant r = Some T1) ∧
       (∀ r, tenant r = None → r ∉ query_all q' t)) ∧
    (∃ q', tenant_authorization amb (PyQuery q) = Return q' ∧
       (∀ r, r ∈ matching q' t ↔ r ∈ matching q t ∧ tenant r = Some T1) ∧
       (∀ r, tenant r = None → r ∉ query_all q' t)).
Proof.
  intros Htk q t. split.
  - destruct (access_filter amb (PyQuery q)) as [q'|e] eqn:Hq;
      [|unfold access_filter in Hq; rewrite Htk in Hq; discriminate].
    exists q'. split; [done|].
    apply access_filter_filter in Hq as [_ Hq]. rewrite Htk in Hq.
    assert (∀ r, r ∈ matching q' t ↔
              r ∈ matching q t ∧ status r = Some ACTIVE ∧ tenant r = Some T1)
      as Hiff.
    { intros r. rewrite !elem_of_matching, Hq, !holds_all_app.
      simpl. rewrite !andb_true_r, !andb_true_iff.
      unfold status_is, tenant_is. rewrite !eq_str_true. tauto. }
    split; [done|].
    intros r Hnone Hr. apply elem_of_query_all, Hiff in Hr.
    destruct Hr as (_ & _ & Ht). congruence.
  - destruct (tenant_authorization amb (PyQuery q)) as [q'|e] eqn:Hq;
      [|unfold tenant_authorization in Hq; rewrite Htk in Hq; discriminate].
    exists q'. split; [done|].
    apply tenant_authorization_filter in Hq as [_ Hq]. rewrite Htk in Hq.
    assert (∀ r, r ∈ matching q' t ↔ r ∈ matching q t ∧ tenant r = Some T1)
      as Hiff.
    { intros r. rewrite !elem_of_matching, Hq, !holds_all_app.
      simpl. rewrite !andb_true_r, !andb_true_iff.
      unfold tenant_is. rewrite !eq_str_true. tauto. }
    split; [done|].
    intros r Hnone Hr. apply elem_of_query_all, Hiff in Hr.
    destruct Hr as (_ & Ht). congruence.
Qed.

(** ** Pagination *)

Lemma unpaged_query_filter (q : Query) cs :
  unpaged q → unpaged (query_filter q cs).
Proof. done. Qed.

Lemma unpaged_apply_sort sort_by sort_order (q : Query) :
  unpaged q → unpaged (apply_sort sort_by sort_order q).
Proof.
  unfold apply_sort.
  destruct (validate_sort_order_and_order_by sort_by sort_order) as [[b|] [o|]];
    try done.
  by destruct (opt_truthy (Some b) && opt_truthy (Some o)).
Qed.

Lemma unpaged_filter_conditions filters (q : Query) :
  filter_conditions filters = Return q → unpaged q.
Proof.
  unfold filter_conditions. intros Hf.
  apply bind_Return in Hf as (cs & _ & Hf). apply Return_inj in Hf as <-.
  by destruct cs.
Qed.

Lemma unpaged_access_filter amb (q q' : Query) :
  access_filter amb (PyQuery q) = Return q' → unpaged q → unpaged q'.
Proof.
  unfold access_filter. by destruct (tenant_key (user amb)); intros [= <-].
Qed.

Lemma unpaged_tenant_authorization amb (q q' : Query) :
  tenant_authorization amb (PyQuery q) = Return q' → unpaged q → unpaged q'.
Proof.
  unfold tenant_authorization.
  by destruct (tenant_key (user amb)); intros [= <-].
Qed.

Lemma unpaged_find_all_forms_query amb sort_by sort_order form_ids is_active
    form_type filters (t : Table) q :
  find_all_forms_query amb sort_by sort_order form_ids is_active form_type
                       filters t = Return q → unpaged q.
Proof.
  intros Hq.
  apply find_all_forms_query_inv in Hq as (q0 & ids & q1 & Hq0 & _ & Hq1 & ->).
  apply unpaged_apply_sort. eapply unpaged_tenant_authorization; [done|].
  apply unpaged_filter_conditions in Hq0.
  destruct is_active, (list_truthy form_type); simpl;
    repeat apply unpaged_query_filter; done.
Qed.

Lemma unpaged_find_all_active_by_formid_query amb sort_by sort_order form_ids
    filters (t : Table) q :
  find_all_active_by_formid_query amb sort_by sort_order form_ids filters t
    = Return q → unpaged q.
Proof.
  intros Hq.
  apply find_all_active_by_formid_query_inv in Hq
    as (q0 & ids & q1 & Hq0 & _ & Hq1 & ->).
  apply unpaged_apply_sort. eapply unpaged_access_filter; [done|].
  apply unpaged_query_filter. by eapply unpaged_filter_conditions.
Qed.

Lemma unpaged_find_all_active_query amb sort_by sort_order process_key
    filters q :
  find_all_active_query amb sort_by sort_order process_key filters = Return q →
  unpaged q.
Proof.
  intros Hq.
  apply find_all_active_query_inv in Hq as (q0 & q1 & Hq0 & Hq1 & ->).
  apply unpaged_apply_sort. eapply unpaged_access_filter; [done|].
  apply unpaged_filter_conditions in Hq0.
  destruct process_key; [by apply unpaged_query_filter | done].
Qed.

Lemma query_all_unpaged (q : Query) (t : Table) :
  unpaged q → query_all q t = matching q t.
Proof. unfold query_all. by intros [-> ->]. Qed.

(** What [count_and_paginate] gives on a query without LIMIT and OFFSET:
    the count of the matching rows; all of them on page 1 without a limit;
    at most [L] rows for a limit [L] of at least 1, at most 20 for a limit
    below 1. *)
Lemma count_and_paginate_spec amb page_number limit (q : Query) (t : Table)
    rows n :
  unpaged q →
  count_and_paginate amb page_number limit q t = (rows, n) →
  n = Z.of_nat (length (matching q t)) ∧
  (limit = None → served_page amb page_number = 1 → rows = matching q t) ∧
  (∀ L, limit = Some L → 1 ≤ L → Z.of_nat (length rows) ≤ L) ∧
  (∀ L, limit = Some L → L < 1 → Z.of_nat (length rows) ≤ 20).
Proof.
  intros Hu. unfold count_and_paginate, query_count.
  rewrite (query_all_unpaged q t Hu). intros [= <- <-].
  unfold paginate, served_page, query_all, matching. simpl.
  set (m := order_rows (q_order q) (List.filter (holds_all (q_filter q)) t)).
  split_and!; [done|..].
  - intros -> ->. simpl. unfold prepare_per_page.
    destruct (Z.ltb_spec (Z.of_nat (length m)) 1) as [Hlt|Hge].
    + destruct m; [done | simpl in Hlt; lia].
    + rewrite Nat2Z.id. by rewrite take_ge.
  - intros L -> HL. unfold prepare_per_page.
    destruct (Z.ltb_spec L 1); [lia|].
    rewrite length_take. lia.
  - intros L -> HL. unfold prepare_per_page.
    destruct (Z.ltb_spec L 1); [|lia].
    rewrite length_take. lia.
Qed.




(** ** get_latest_form_mapper_ids *)

Lemma sql_max_Some (zs : list Z) (m : Z) :
  sql_max zs = Some m → m ∈ zs ∧ ∀ z, z ∈ zs → z ≤ m.
Proof.
  revert m. induction zs as [|z zs IH]; intros m; simpl; [done|].
  destruct (sql_max zs) as [m'|] eqn:Hm.
  - intros [= <-]. destruct (IH m' eq_refl) as [Hin Hle]. split.
    + destruct (Z.max_spec z m') as [[_ ->]|[_ ->]]; [by right | left].
    + intros z' [->|Hz']%elem_of_cons; [lia|].
      specialize (Hle z' Hz'). lia.
  - intros [= <-]. destruct zs as [|z' zs']; [|done]. split; [left|].
    intros z' Hz'. apply list_elem_of_singleton in Hz' as ->. lia.
Qed.

Lemma sql_max_None (zs : list Z) : sql_max zs = None → zs = [].
Proof. by destruct zs. Qed.

Lemma elem_of_group_rows parent (t : Table) (r : FormProcessMapper) :
  r ∈ group_rows parent t ↔ r ∈ t ∧ parent_form_id r = parent.
Proof.
  unfold group_rows. rewrite elem_of_List_filter, String.eqb_eq. done.
Qed.

Lemma NoDup_omap_key {A B} (f : A → option B) (g : B → A) (l : list A) :
  (∀ x y, f x = Some y → g y = x) → NoDup l → NoDup (map g (omap f l)).
Proof.
  intros Hfg. induction 1 as [|x l Hx Hl IH]; simpl; [constructor|].
  destruct (f x) as [y|] eqn:Hy; [|done]. simpl.
  rewrite (Hfg x y Hy). constructor; [|done].
  intros Hin. apply list_elem_of_fmap in Hin as (y' & -> & Hy').
  apply list_elem_of_omap in Hy' as (x' & Hx' & Hf').
  apply Hfg in Hf'. by subst.
Qed.

Lemma elem_of_get_latest_form_mapper_ids (t : Table) (e : latest_id) :
  e ∈ get_latest_form_mapper_ids t ↔
  li_parent_form_id e ∈ map parent_form_id t ∧
  sql_max (map id (group_rows (li_parent_form_id e) t)) = Some (li_id e).
Proof.
  unfold get_latest_form_mapper_ids. rewrite list_elem_of_omap. split.
  - intros (parent & Hp & He). rewrite elem_of_remove_dups in Hp.
    destruct (sql_max _) as [m|] eqn:Hm; [|done].
    injection He as <-. simpl. by split.
  - intros [Hp Hm]. exists (li_parent_form_id e).
    split; [by rewrite elem_of_remove_dups|]. rewrite Hm. by destruct e.
Qed.

(** C5.  [get_latest_form_mapper_ids] has one entry for each distinct
    [parent_form_id] of the table and no other entry: no two entries share
    a [parent_form_id], every row's [parent_form_id] has an entry, and the
    id of an entry is the id of a row of its group and is at least the id
    of every row of the group. *)
Theorem get_latest_form_mapper_ids_max (t : Table) :
  NoDup (map li_parent_form_id (get_latest_form_mapper_ids t)) ∧
  (∀ r, r ∈ t →
     ∃ e, e ∈ get_latest_form_mapper_ids t ∧
          li_parent_form_id e = parent_form_id r) ∧
  (∀ e, e ∈ get_latest_form_mapper_ids t →
     (∃ r, r ∈ t ∧ parent_form_id r = li_parent_form_id e ∧ id r = li_id e) ∧
     (∀ r, r ∈ t → parent_form_id r = li_parent_form_id e → id r ≤ li_id e)).
Proof.
  split_and!.
  - unfold get_latest_form_mapper_ids. apply NoDup_omap_key.
    + intros parent e He. destruct (sql_max _); [|done]. by injection He as <-.
    + apply NoDup_remove_dups.
  - intros r Hr.
    destruct (sql_max (map id (group_rows (parent_form_id r) t))) as [m|] eqn:Hm.
    + exists {| li_id := m; li_parent_form_id := parent_form_id r |}.
      split; [|done]. apply elem_of_get_latest_form_mapper_ids. simpl.
      split; [|done]. apply list_elem_of_fmap. by exists r.
    + apply sql_max_None, map_eq_nil in Hm.
      assert (r ∈ group_rows (parent_form_id r) t) as Hg
        by by apply elem_of_group_rows.
      rewrite Hm in Hg. by apply not_elem_of_nil in Hg.
  - intros e He. apply elem_of_get_latest_form_mapper_ids in He as [_ Hm].
    apply sql_max_Some in Hm as [Hin Hle]. split.
    + apply list_elem_of_fmap in Hin as (r & Hid & Hr).
      apply elem_of_group_rows in Hr as [Hr Hp]. by exists r.
    + intros r Hr Hp. apply Hle. apply list_elem_of_fmap. exists r.
      split; [done|]. by apply elem_of_group_rows.
Qed.

(** ** update *)

(** A column setter changes the column it names and no other. *)
Ltac frame_of_setter :=
  let Hk := fresh "Hk" in
  intros Hk; apply String.eqb_neq in Hk;
  unfold getattr; rewrite Hk; reflexivity.

Lemma getattr_set_id key v (m : FormProcessMapper) :
  key ≠ "id" → getattr key (set_id v m) = getattr key m.
Proof. frame_of_setter. Qed.

Lemma getattr_set_form_id key v (m : FormProcessMapper) :
  key ≠ "form_id" → getattr key (set_form_id v m) = getattr key m.
Proof. frame_of_setter. Qed.

Lemma getattr_set_form_name key v (m : FormProcessMapper) :
  key ≠ "form_name" → getattr key (set_form_name v m) = getattr key m.
Proof. frame_of_setter. Qed.

Lemma getattr_set_form_type key v (m : FormProcessMapper) :
  key ≠ "form_type" → getattr key (set_form_type v m) = getattr key m.
Proof. frame_of_setter. Qed.

Lemma getattr_set_parent_form_id key v (m : FormProcessMapper) :
  key ≠ "parent_form_id" → getattr key (set_parent_form_id v m) = getattr key m.
Proof. frame_of_setter. Qed.

Lemma getattr_set_process_key key v (m : FormProcessMapper) :
  key ≠ "process_key" → getattr key (set_process_key v m) = getattr key m.
Proof. frame_of_setter. Qed.

Lemma getattr_set_process_name key v (m : FormProcessMapper) :
  key ≠ "process_name" → getattr key (set_process_name v m) = getattr key m.
Proof. frame_of_setter. Qed.

Lemma getattr_set_status key v (m : FormProcessMapper) :
  key ≠ "status" → getattr key (set_status v m) = getattr key m.
Proof. frame_of_setter. Qed.

Lemma getattr_set_comments key v (m : FormProcessMapper) :
  key ≠ "comments" → getattr key (set_comments v m) = getattr key m.
Proof. frame_of_setter. Qed.

Lemma getattr_set_tenant key v (m : FormProcessMapper) :
  key ≠ "tenant" → getattr key (set_tenant v m) = getattr key m.
Proof. frame_of_setter. Qed.

Lemma getattr_set_process_tenant key v (m : FormProcessMapper) :
  key ≠ "process_tenant" → getattr key (set_process_tenant v m) = getattr key m.
Proof. frame_of_setter. Qed.

Lemma getattr_set_is_anonymous key v (m : FormProcessMapper) :
  key ≠ "is_anonymous" → getattr key (set_is_anonymous v m) = getattr key m.
Proof. frame_of_setter. Qed.

Lemma getattr_set_deleted key v (m : FormProcessMapper) :
  key ≠ "deleted" → getattr key (set_deleted v m) = getattr key m.
Proof. frame_of_setter. Qed.

Lemma getattr_set_task_variable key v (m : FormProcessMapper) :
  key ≠ "task_variable" → getattr key (set_task_variable v m) = getattr key m.
Proof. frame_of_setter. Qed.

Lemma getattr_set_version key v (m : FormProcessMapper) :
  key ≠ "version" → getattr key (set_version v m) = getattr key m.
Proof. frame_of_setter. Qed.

Lemma getattr_set_description key v (m : FormProcessMapper) :
  key ≠ "description" → getattr key (set_description v m) = getattr key m.
Proof. frame_of_setter. Qed.

Lemma getattr_set_created_by key v (m : FormProcessMapper) :
  key ≠ "created_by" → getattr key (set_created_by v m) = getattr key m.
Proof. frame_of_setter. Qed.

Lemma getattr_set_modified_by key v (m : FormProcessMapper) :
  key ≠ "modified_by" → getattr key (set_modified_by v m) = getattr key m.
Proof. frame_of_setter. Qed.

Lemma getattr_set_created key v (m : FormProcessMapper) :
  key ≠ "created" → getattr key (set_created v m) = getattr key m.
Proof. frame_of_setter. Qed.

Lemma getattr_set_modified key v (m : FormProcessMapper) :
  key ≠ "modified" → getattr key (set_modified v m) = getattr key m.
Proof. frame_of_setter. Qed.

Ltac frame_of_assignment :=
  lazymatch goal with
  | |- getattr _ (set_id _ _) = _ => apply getattr_set_id
  | |- getattr _ (set_form_id _ _) = _ => apply getattr_set_form_id
  | |- getattr _ (set_form_name _ _) = _ => apply getattr_set_form_name
  | |- getattr _ (set_form_type _ _) = _ => apply getattr_set_form_type
  | |- getattr _ (set_parent_form_id _ _) = _ => apply getattr_set_parent_form_id
  | |- getattr _ (set_process_key _ _) = _ => apply getattr_set_process_key
  | |- getattr _ (set_process_name _ _) = _ => apply getattr_set_process_name
  | |- getattr _ (set_status _ _) = _ => apply getattr_set_status
  | |- getattr _ (set_comments _ _) = _ => apply getattr_set_comments
  | |- getattr _ (set_tenant _ _) = _ => apply getattr_set_tenant
  | |- getattr _ (set_process_tenant _ _) = _ => apply getattr_set_process_tenant
  | |- getattr _ (set_is_anonymous _ _) = _ => apply getattr_set_is_anonymous
  | |- getattr _ (set_deleted _ _) = _ => apply getattr_set_deleted
  | |- getattr _ (set_task_variable _ _) = _ => apply getattr_set_task_variable
  | |- getattr _ (set_version _ _) = _ => apply getattr_set_version
  | |- getattr _ (set_description _ _) = _ => apply getattr_set_description
  | |- getattr _ (set_created_by _ _) = _ => apply getattr_set_created_by
  | |- getattr _ (set_modified_by _ _) = _ => apply getattr_set_modified_by
  | |- getattr _ (set_created _ _) = _ => apply getattr_set_created
  | |- getattr _ (set_modified _ _) = _ => apply getattr_set_modified
  | |- getattr _ ?m = getattr _ ?m => reflexivity
  end.

(** An assignment changes the column it names, when there is one, and no
    other. *)
Lemma setattr_frame (self self' : FormProcessMapper) (key key' : string)
    (value : pyval) :
  setattr self key value = Return self' →
  key' ≠ key →
  getattr key' self' = getattr key' self.
Proof.
  unfold setattr. intros Hs Hne.
  repeat match type of Hs with
  | (if String.eqb key ?c then _ else _) = _ =>
      destruct (String.eqb_spec key c) as [->|_];
      [ first [ apply bind_Return in Hs as (v & _ & Hs) | idtac ];
        apply Return_inj in Hs as <-; by frame_of_assignment
      | ]
  end.
  by apply Return_inj in Hs as <-.
Qed.

Lemma update_from_dict_frame (columns : list string)
    (values_dict : gmap string pyval) (self self' : FormProcessMapper)
    (key : string) :
  update_from_dict self columns values_dict = Return self' →
  key ∉ columns ∨ values_dict !! key = None →
  getattr key self' = getattr key self.
Proof.
  revert self. induction columns as [|c columns IH]; intros self; simpl.
  - by intros [= <-].
  - intros Hu Hk. destruct (values_dict !! c) as [value|] eqn:Hc.
    + apply bind_Return in Hu as (self1 & Hs & Hu).
      rewrite (IH self1 Hu).
      * eapply setattr_frame; [done|]. intros ->.
        destruct Hk as [Hk|Hk]; [apply Hk; left | congruence].
      * destruct Hk as [Hk|Hk]; [left | by right].
        intros Hin. apply Hk. by right.
    + apply IH; [done|]. destruct Hk as [Hk|Hk]; [left | by right].
      intros Hin. apply Hk. by right.
Qed.

Lemma col_opt_str_inj (a b : option string) :
  col_opt_str a = col_opt_str b → a = b.
Proof. destruct a, b; simpl; congruence. Qed.

Lemma col_opt_bool_inj (a b : option bool) :
  col_opt_bool a = col_opt_bool b → a = b.
Proof. destruct a, b; simpl; congruence. Qed.

(** C7.  [update] changes only attributes of its allow-list: a column of
    the class whose name is not in the list, or is not a key of the field
    bag, has the value it had; in particular [id], [version], [tenant],
    [parent_form_id] and [deleted] are unchanged. *)
Theorem update_changes_only_allow_list (self : FormProcessMapper)
    (mapper_info : gmap string pyval) (t : Table)
    (self' : FormProcessMapper) (t' : Table) :
  update self mapper_info t = Return (self', t') →
  (∀ key, key ∈ class_columns →
          key ∉ update_columns ∨ mapper_info !! key = None →
          getattr key self' = getattr key self) ∧
  id self' = id self ∧
  version self' = version self ∧
  tenant self' = tenant self ∧
  parent_form_id self' = parent_form_id self ∧
  deleted self' = deleted self.
Proof.
  unfold update. intros Hu.
  apply bind_Return in Hu as (s1 & Hu & Hr).
  apply Return_inj in Hr. injection Hr as <- _.
  assert (∀ key, key ∉ update_columns ∨ mapper_info !! key = None →
                 getattr key s1 = getattr key self) as Hframe
    by (intros key; by apply update_from_dict_frame).
  split; [intros key _; apply Hframe|].
  assert (∀ key, key ∉ update_columns → getattr key s1 = getattr key self)
    as Hout by (intros key ?; apply Hframe; by left).
  split_and!.
  - assert (getattr "id" s1 = getattr "id" self) as Hg
      by (apply Hout; apply (bool_decide_unpack _); by vm_compute).
    by injection Hg.
  - assert (getattr "version" s1 = getattr "version" self) as Hg
      by (apply Hout; apply (bool_decide_unpack _); by vm_compute).
    by injection Hg.
  - assert (getattr "tenant" s1 = getattr "tenant" self) as Hg
      by (apply Hout; apply (bool_decide_unpack _); by vm_compute).
    by apply col_opt_str_inj.
  - assert (getattr "parent_form_id" s1 = getattr "parent_form_id" self) as Hg
      by (apply Hout; apply (bool_decide_unpack _); by vm_compute).
    by injection Hg.
  - assert (getattr "deleted" s1 = getattr "deleted" self) as Hg
      by (apply Hout; apply (bool_decide_unpack _); by vm_compute).
    by apply col_opt_bool_inj.
Qed.

(** ** Point lookups *)

Lemma query_first_unpaged (q : Query) (t : Table) :
  unpaged q → query_first q t = head (matching q t).
Proof. intros Hu. unfold query_first. by rewrite query_all_unpaged. Qed.

Lemma head_None_nil {A} (l : list A) : head l = None → l = [].
Proof. by destruct l. Qed.

(** C8.  [find_mapper_by_form_id_and_version] returns a row only when its
    [form_id], its [version] and its [tenant] all match, the tenant being
    compared with the tenant key of the caller's context; it returns such a
    row whenever the table has one; and when no row with that [form_id] and
    [version] has the caller's tenant (the rows that match belong to no
    tenant or to another one) the result is [None], a value and not an
    exception. *)
Theorem find_mapper_by_form_id_and_version_scoped (amb : Ambient)
    (form_id_ : string) (version_ : Z) (t : Table) :
  (∀ r, find_mapper_by_form_id_and_version amb form_id_ version_ t = Some r →
        r ∈ t ∧ form_id r = form_id_ ∧ version r = version_ ∧
        tenant r = tenant_key (user amb)) ∧
  (∀ r, r ∈ t → form_id r = form_id_ → version r = version_ →
        tenant r = tenant_key (user amb) →
        is_Some (find_mapper_by_form_id_and_version amb form_id_ version_ t)) ∧
  ((∀ r, r ∈ t → form_id r = form_id_ → version r = version_ →
         tenant r ≠ tenant_key (user amb)) →
   find_mapper_by_form_id_and_version amb form_id_ version_ t = None).
Proof.
  unfold find_mapper_by_form_id_and_version.
  set (q := query_filter base_query _).
  assert (∀ r, r ∈ matching q t ↔
               r ∈ t ∧ form_id r = form_id_ ∧ version r = version_ ∧
               tenant r = tenant_key (user amb)) as Hm.
  { intros r. rewrite elem_of_matching. unfold q, and_. simpl.
    unfold form_id_is, version_is, tenant_eq.
    rewrite !andb_true_r, !andb_true_iff, String.eqb_eq, Z.eqb_eq,
      eq_opt_str_true. tauto. }
  split_and!.
  - intros r Hr. apply query_first_elem_of in Hr. by apply Hm.
  - intros r Hr Hf Hv Ht.
    assert (r ∈ matching q t) as Hin by by apply Hm.
    rewrite query_first_unpaged by done.
    destruct (matching q t); [by apply not_elem_of_nil in Hin | by eexists].
  - intros Hno.
    destruct (query_first q t) as [r|] eqn:Hr; [|done].
    apply query_first_elem_of, Hm in Hr as (Hr & Hf & Hv & Ht).
    by destruct (Hno r).
Qed.

(** The head of a list sorted by descending version has the largest
    version. *)
Lemma sort_rows_version_desc_head (l : list FormProcessMapper)
    (h : FormProcessMapper) :
  head (sort_rows version_desc l) = Some h →
  ∀ r, r ∈ l → version r ≤ version h.
Proof.
  revert h. induction l as [|x l IH]; intros h; simpl.
  - intros _ r Hr. by apply not_elem_of_nil in Hr.
  - pose proof (sort_rows_perm version_desc l) as Hperm.
    destruct (sort_rows version_desc l) as [|y s] eqn:Hs; simpl.
    + apply Permutation_nil in Hperm as ->. intros [= <-] r Hr.
      apply list_elem_of_singleton in Hr as ->. lia.
    + specialize (IH y eq_refl). unfold version_desc at 1.
      destruct (Z.leb_spec (version y) (version x)) as [Hle|Hgt]; simpl.
      * intros [= <-] r [->|Hr]%elem_of_cons; [lia|].
        specialize (IH r Hr). lia.
      * intros [= <-] r [->|Hr]%elem_of_cons; [lia|]. by apply IH.
Qed.

(** C9.  For a [form_id] that has a row, [find_form_by_form_id] returns a
    row with that [form_id] whose [version] is the largest among all rows
    with that [form_id], whatever their tenant, status and deleted flag
    are. *)
Theorem find_form_by_form_id_max_version (form_id_ : string) (t : Table) :
  (∃ r0, r0 ∈ t ∧ form_id r0 = form_id_) →
  ∃ r, find_form_by_form_id form_id_ t = Some r ∧
       r ∈ t ∧ form_id r = form_id_ ∧
       ∀ r', r' ∈ t → form_id r' = form_id_ → version r' ≤ version r.
Proof.
  intros (r0 & Hr0 & Hf0).
  unfold find_form_by_form_id, query_first, query_all, matching. simpl.
  rewrite drop_0.
  set (l := List.filter (holds_all [form_id_is form_id_]) t).
  assert (∀ r, r ∈ l ↔ r ∈ t ∧ form_id r = form_id_) as Hl.
  { intros r. unfold l. rewrite elem_of_List_filter. simpl.
    unfold form_id_is. by rewrite andb_true_r, String.eqb_eq. }
  pose proof (sort_rows_perm version_desc l) as Hperm.
  pose proof (sort_rows_version_desc_head l) as Hmax.
  destruct (sort_rows version_desc l) as [|h s] eqn:Hs.
  - apply Permutation_nil in Hperm.
    assert (r0 ∈ l) as Hin by by apply Hl.
    rewrite Hperm in Hin. by apply not_elem_of_nil in Hin.
  - exists h. split; [done|].
    assert (h ∈ l) as Hh by (rewrite <- Hperm; left).
    apply Hl in Hh as [Hh Hf]. split_and!; [done..|].
    intros r' Hr' Hf'. apply (Hmax h eq_refl). by apply Hl.
Qed.

(** ** filter_conditions *)

Lemma filter_conditions_loop_falsy key value filters acc :
  truthy value = false →
  filter_conditions_loop ((key, value) :: filters) acc =
  filter_conditions_loop filters acc.
Proof. intros Hv. simpl. by rewrite Hv. Qed.

Lemma filter_conditions_loop_skip pre key value post acc :
  truthy value = false →
  filter_conditions_loop (pre ++ (key, value) :: post) acc =
  filter_conditions_loop (pre ++ post) acc.
Proof.
  intros Hv. revert acc.
  induction pre as [|[k v] pre IH]; intros acc; simpl.
  - by rewrite Hv.
  - destruct (truthy v); [|apply IH].
    destruct (FILTER_MAPS !! k); [|done].
    destruct (create_filter_condition _ _ v); simpl; [apply IH | done].
Qed.

Lemma filter_conditions_loop_all_falsy filters acc :
  Forall (fun kv => truthy kv.2 = false) filters →
  filter_conditions_loop filters acc = Return acc.
Proof.
  induction 1 as [|[k v] filters Hv _ IH]; simpl; [done|].
  simpl in Hv. by rewrite Hv.
Qed.

(** C10.  In [filter_conditions] an entry whose value is falsy ([None],
    [False], [0], the empty string, an empty list or dictionary) adds no
    condition: the result is the one of the same call without the entry,
    whatever the key of the entry is.  When no entry has a truthy value the
    result is the base query, with no condition at all. *)
Theorem filter_conditions_skips_falsy :
  (truthy PNone = false ∧ truthy (PBool false) = false ∧
   truthy (PInt 0) = false ∧ truthy (PStr "") = false ∧
   truthy (PList []) = false ∧ truthy (PDict []) = false) ∧
  (∀ pre key value post,
     truthy value = false →
     filter_conditions (pre ++ (key, value) :: post) =
     filter_conditions (pre ++ post)) ∧
  (∀ filters,
     Forall (fun kv => truthy kv.2 = false) filters →
     filter_conditions filters = Return base_query ∧
     q_filter base_query = []).
Proof.
  split_and!; try done.
  - intros pre key value post Hv. unfold filter_conditions.
    by rewrite filter_conditions_loop_skip.
  - intros filters Hall. unfold filter_conditions.
    by rewrite filter_conditions_loop_all_falsy.
Qed.

(** ** Soft delete *)

Lemma elem_of_commit (self : FormProcessMapper) (t : Table)
    (r : FormProcessMapper) :
  r ∈ commit self t →
  (r = self ∧ id self ∈ map id t) ∨ (r ∈ t ∧ id r ≠ id self).
Proof.
  unfold commit. intros Hr.
  apply list_elem_of_fmap in Hr as (r0 & -> & Hr0).
  destruct (Z.eqb_spec (id r0) (id self)) as [He|Hne].
  - left. split; [done|]. rewrite <- He. apply list_elem_of_fmap. by exists r0.
  - by right.
Qed.

Lemma map_id_commit (self : FormProcessMapper) (t : Table) :
  map id (commit self t) = map id t.
Proof.
  unfold commit. rewrite map_map. apply map_ext. intros r.
  by destruct (Z.eqb_spec (id r) (id self)).
Qed.

(** A commit of a row that keeps its [deleted] flag, or sets it, keeps the
    deleted rows deleted. *)
Lemma deleted_in_commit (i : Z) (self self' : FormProcessMapper) (t : Table) :
  self ∈ t →
  id self' = id self →
  deleted self' = deleted self ∨ deleted self' = Some true →
  deleted_in i t → deleted_in i (commit self' t).
Proof.
  intros Hself Hid Hdel [Hin Hall]. split.
  - by rewrite map_id_commit.
  - intros r Hr Hi.
    apply elem_of_commit in Hr as [[-> _]|[Hr _]]; [|by apply Hall].
    destruct Hdel as [-> | ->]; [|done]. apply Hall; [done | congruence].
Qed.

Lemma update_from_dict_keeps_deleted (self self' : FormProcessMapper)
    (mapper_info : gmap string pyval) :
  update_from_dict self update_columns mapper_info = Return self' →
  id self' = id self ∧ deleted self' = deleted self.
Proof.
  intros Hu. split.
  - assert (getattr "id" self' = getattr "id" self) as Hg.
    { eapply update_from_dict_frame; [done|]. left.
      apply (bool_decide_unpack _). by vm_compute. }
    by injection Hg.
  - assert (getattr "deleted" self' = getattr "deleted" self) as Hg.
    { eapply update_from_dict_frame; [done|]. left.
      apply (bool_decide_unpack _). by vm_compute. }
    by apply col_opt_bool_inj.
Qed.

(** No public operation brings a deleted row back. *)
Lemma step_keeps_deleted (i : Z) (w w' : World) :
  save_inserts → step w w' → deleted_in i (db w) → deleted_in i (db w').
Proof.
  intros Hsave Hstep Hd. destruct Hstep as
    [mapper_info w | self mapper_info w self' t' Hself Hu
    | self mapper_info w e Hself Hu | self w Hself | self w Hself].
  - unfold create_from_dict.
    destruct (try_create mapper_info (db w)) as [[[m t']|]|e] eqn:Ht;
      simpl; try done.
    unfold try_create in Ht. destruct (dict_truthy mapper_info); [|done].
    apply bind_Return in Ht as (mapper & _ & Ht).
    apply bind_Return in Ht as ([row t''] & Hs & Ht).
    apply Return_inj in Ht. injection Ht as -> ->.
    apply Hsave in Hs as [-> Hfresh]. destruct Hd as [Hin Hall]. split.
    + rewrite map_app. apply elem_of_app. by left.
    + intros r [Hr|Hr]%elem_of_app Hi; [by apply Hall|].
      apply list_elem_of_singleton in Hr as ->. by rewrite Hi in Hfresh.
  - simpl. unfold update in Hu.
    apply bind_Return in Hu as (s1 & Hu & Hr).
    apply Return_inj in Hr. injection Hr as -> <-.
    apply update_from_dict_keeps_deleted in Hu as [Hid Hdel].
    eapply deleted_in_commit; eauto.
  - done.
  - simpl. eapply deleted_in_commit; eauto.
  - simpl. eapply deleted_in_commit; eauto.
Qed.

Lemma steps_keep_deleted (i : Z) (w w' : World) :
  save_inserts → rtc step w w' → deleted_in i (db w) → deleted_in i (db w').
Proof.
  intros Hsave. induction 1 as [|w1 w2 w3 Hstep _ IH]; [done|].
  intros Hd. apply IH. by eapply step_keeps_deleted.
Qed.

(** [find_all_forms] lists only rows whose [deleted] flag is false. *)
Lemma find_all_forms_rows_not_deleted amb page_number limit sort_by sort_order
    form_ids is_active form_type filters (t : Table) rows n r :
  find_all_forms_rows amb page_number limit sort_by sort_order form_ids
                      is_active form_type filters t = Return (rows, n) →
  r ∈ rows → r ∈ t ∧ deleted r = Some false.
Proof.
  intros Hf Hr.
  apply find_all_forms_rows_inv in Hf as (q & Hq & Hp).
  apply find_all_forms_query_inv in Hq as (q0 & ids & q1 & _ & _ & Hq & ->).
  eapply count_and_paginate_rows in Hp as [Hin Hh]; [|done].
  split; [done|]. rewrite apply_sort_filter in Hh.
  apply tenant_authorization_filter in Hq as [_ Hq]. rewrite Hq in Hh.
  rewrite holds_all_app, andb_true_iff in Hh. destruct Hh as [Hh _].
  assert (holds_all (q_filter q0 ++ [and_ [not_deleted]; id_in ids]) r = true)
    as Hbase.
  { destruct is_active, (list_truthy form_type);
      cbn [q_filter query_filter] in Hh;
      repeat rewrite holds_all_app in Hh; rewrite holds_all_app;
      repeat rewrite andb_true_iff in Hh; rewrite andb_true_iff; tauto. }
  rewrite holds_all_app, andb_true_iff in Hbase. destruct Hbase as [_ Hb].
  simpl in Hb. unfold and_, not_deleted, is_false in Hb. simpl in Hb.
  by destruct (deleted r) as [[]|].
Qed.

(** C6.  After [mark_inactive] on a row of the table, the row has status
    INACTIVE and [deleted] true, in the object and in the table.  From
    then on, whatever public operations follow, no page of [find_all_forms]
    has an item of that row: [find_all_forms] lists only rows whose
    [deleted] flag is false, and no operation changes the flag of a deleted
    row. *)
Theorem mark_inactive_is_permanent (self : FormProcessMapper) (w : World) :
  save_inserts →
  self ∈ db w →
  let marked := (mark_inactive self (db w)).1 in
  let w1 := {| db := (mark_inactive self (db w)).2; log := log w |} in
  (id marked = id self ∧ status marked = Some INACTIVE ∧
   deleted marked = Some true ∧ marked ∈ db w1 ∧
   ∀ r, r ∈ db w1 → id r = id self → r = marked) ∧
  ∀ w2, rtc step w1 w2 →
    (∀ r, r ∈ db w2 → id r = id self → deleted r = Some true) ∧
    ∀ amb page_number limit sort_by sort_order form_ids is_active form_type
      filters items n,
      find_all_forms amb page_number limit sort_by sort_order form_ids
                     is_active form_type filters (db w2) = Return (items, n) →
      ∀ item, item ∈ items →
        ∃ r, r ∈ db w2 ∧ item = with_entities find_all_forms_entities r ∧
             deleted r = Some false ∧ id r ≠ id self.
Proof.
  intros Hsave Hself marked w1.
  assert (id marked = id self) as Hid by done.
  assert (deleted_in (id self) (db w1)) as Hd.
  { split.
    - simpl. rewrite map_id_commit. apply list_elem_of_fmap. by exists self.
    - simpl. intros r Hr Hi.
      apply elem_of_commit in Hr as [[-> _]|[_ Hne]]; [done|].
      by rewrite Hi in Hne. }
  split.
  - split_and!; try done.
    + simpl. unfold commit. apply list_elem_of_fmap. exists self.
      split; [|done]. simpl. by rewrite Z.eqb_refl.
    + simpl. intros r Hr Hi.
      apply elem_of_commit in Hr as [[-> _]|[_ Hne]]; [done|].
      by rewrite Hi in Hne.
  - intros w2 Hsteps.
    pose proof (steps_keep_deleted _ _ _ Hsave Hsteps Hd) as [_ Hall].
    split; [done|].
    intros ????????? items n Hf item Hi.
    apply find_all_forms_items in Hf as (rows & Hrows & ->).
    apply list_elem_of_fmap in Hi as (r & -> & Hr).
    eapply find_all_forms_rows_not_deleted in Hrows as [Hin Hnd]; [|done].
    exists r. split_and!; try done.
    intros Hi. specialize (Hall r Hin Hi). congruence.
Qed.

End Properties.

(** * The model on the example table *)

Lemma next_id_fresh (t : Table) : Demo.next_id t ∉ map id t.
Proof.
  assert (∀ z, z ∈ map id t → z < Demo.next_id t) as Hlt.
  { unfold Demo.next_id. induction t as [|r t IH]; simpl.
    - intros z Hz. by apply not_elem_of_nil in Hz.
    - intros z [->|Hz]%elem_of_cons; [lia|]. specialize (IH z Hz). lia. }
  intros Hin. specialize (Hlt _ Hin). lia.
Qed.

Lemma demo_save_inserts : @save_inserts Demo.collaborators.
Proof.
  intros mapper t row t'. simpl. unfold Demo.insert_row. intros Hs.
  repeat (apply bind_Return in Hs as (? & _ & Hs)).
  destruct (Demo.violates_form_version_uc _ t); [done|].
  apply Return_inj in Hs. injection Hs as <- <-.
  split; [done|]. simpl. apply next_id_fresh.
Qed.

Example create_from_dict_persists :
  ∃ m w', @create_from_dict Demo.collaborators Demo.bag
            {| db := Demo.table; log := [] |} = (Return (Mapper m), w') ∧
          id m = 4 ∧ form_id m = "H" ∧ db w' = Demo.table ++ [m] ∧ log w' = [].
Proof. eexists _, _. split; [by vm_compute|]. by vm_compute. Qed.

Example create_from_dict_missing_key :
  @create_from_dict Demo.collaborators (delete "form_name" Demo.bag)
    {| db := Demo.table; log := [] |} =
  (Return bad_request_response,
   {| db := Demo.table; log := [KeyError "form_name"] |}).
Proof. by vm_compute. Qed.

Example create_from_dict_constraint :
  let bag := <["tenant" := PStr "T1"]> (<["form_id" := PStr "G"]> Demo.bag) in
  @create_from_dict Demo.collaborators bag {| db := Demo.table; log := [] |} =
  (Return bad_request_response,
   {| db := Demo.table; log := [IntegrityError "_form_version_uc"] |}).
Proof. by vm_compute. Qed.

Example create_from_dict_empty :
  @create_from_dict Demo.collaborators ∅ {| db := Demo.table; log := [] |} =
  (Return bad_request_response, {| db := Demo.table; log := [] |}).
Proof. by vm_compute. Qed.

Example get_latest_form_mapper_ids_table :
  get_latest_form_mapper_ids Demo.table =
  [ {| li_id := 2; li_parent_form_id := "P" |};
    {| li_id := 3; li_parent_form_id := "Q" |} ].
Proof. by vm_compute. Qed.

Example find_mapper_other_tenant :
  find_mapper_by_form_id_and_version (Demo.caller (Some "X")) "F" 1 Demo.table
    = None ∧
  find_mapper_by_form_id_and_version (Demo.caller None) "F" 1 Demo.table
    = Some (Demo.row 1 "F" "P" 1 None "active").
Proof. by vm_compute. Qed.

Example filter_conditions_zero_is_absent :
  @filter_conditions Demo.collaborators
     [("no_such_filter", PInt 0); ("form_name", PStr "")] = Return base_query ∧
  @filter_conditions Demo.collaborators [("no_such_filter", PInt 1)]
    = Raise (KeyError "no_such_filter").
Proof. by vm_compute. Qed.

Example find_all_active_first_page :
  @find_all_active Demo.collaborators (Demo.caller None) (Some 1) (Some 2)
     (Some "id") (Some "desc") None [] Demo.table =
  Return ([ [PInt 3; PStr "Defaultflow"; PStr "G"; PStr "Form G"];
            [PInt 2; PStr "Defaultflow"; PStr "F"; PStr "Form F"] ], 3).
Proof. by vm_compute. Qed.


(** C2 on the example table: the caller of tenant [T1] is shown the form
    of [T1] only. *)
Lemma tenant_isolation_witness :
  tenant_key (user (Demo.caller (Some "T1"))) = Some "T1" ∧
  ∃ items n,
    @find_all_active Demo.collaborators (Demo.caller (Some "T1"))
       None None None None None [] Demo.table = Return (items, n) ∧
    length items = 1%nat ∧
    ∀ item, item ∈ items →
      ∃ r, r ∈ Demo.table ∧ item = with_entities find_all_active_entities r ∧
           ∀ T2, tenant r = Some T2 → T2 = "T1".
Proof.
  split; [reflexivity|].
  eexists _, _. split; [vm_compute; reflexivity|]. split; [reflexivity|].
  intros item Hitem.
  destruct (@tenant_isolation Demo.collaborators (Demo.caller (Some "T1"))
              "T1" eq_refl) as (_ & _ & _ & Hactive).
  apply (Hactive None None None None None [] Demo.table
           [[PInt 3; PStr "Defaultflow"; PStr "G"; PStr "Form G"]] 1 item);
    [vm_compute; reflexivity | exact Hitem].
Defined.

(** C3 on the example table: for the caller of tenant [T1] the rows
    without tenant are not in the result of [tenant_authorization]. *)
Lemma tenant_filter_exact_witness :
  tenant_key (user (Demo.caller (Some "T1"))) = Some "T1" ∧
  ∃ q', @tenant_authorization (Demo.caller (Some "T1")) (PyQuery base_query)
          = Return q' ∧
        query_all q' Demo.table = [Demo.row 3 "G" "Q" 1 (Some "T1") "active"] ∧
        Demo.row 1 "F" "P" 1 None "active" ∉ query_all q' Demo.table.
Proof.
  split; [reflexivity|].
  destruct (@tenant_filter_exact Demo.collaborators
              (Demo.caller (Some "T1")) "T1" eq_refl base_query Demo.table)
    as (_ & q' & Hq' & _ & Hnull).
  exists q'. split; [exact Hq'|]. split.
  - vm_compute in Hq'. injection Hq' as <-. vm_compute. reflexivity.
  - apply Hnull. reflexivity.
Defined.

(** C7 on a row of the example table: a bag that also carries [id],
    [version], [tenant], [parent_form_id] and [deleted] changes the name
    and the status only. *)
Lemma update_changes_only_allow_list_witness :
  let self := Demo.row 1 "F" "P" 1 None "active" in
  let bag : gmap string pyval :=
    list_to_map
      [ ("form_name", PStr "Renamed"); ("status", PStr "inactive");
        ("id", PInt 99); ("version", PInt 7); ("tenant", PStr "T9");
        ("parent_form_id", PStr "Z"); ("deleted", PBool true) ] in
  ∃ self' t',
    update self bag Demo.table = Return (self', t') ∧
    form_name self' = "Renamed" ∧ status self' = Some "inactive" ∧
    id self' = 1 ∧ version self' = 1 ∧ tenant self' = None ∧
    parent_form_id self' = "P" ∧ deleted self' = Some false.
Proof.
  intros self bag.
  destruct (update self bag Demo.table) as [[self' t']|e] eqn:Hu;
    [|vm_compute in Hu; discriminate Hu].
  exists self', t'. split; [reflexivity|].
  destruct (@update_changes_only_allow_list self bag Demo.table self' t' Hu)
    as (_ & Hid & Hversion & Htenant & Hparent & Hdeleted).
  rewrite Hid, Hversion, Htenant, Hparent, Hdeleted.
  vm_compute in Hu. injection Hu as <- _. repeat split.
Defined.

(** C9 on the example table: of the two versions of form [F], the second
    is returned. *)
Lemma find_form_by_form_id_max_version_witness :
  (∃ r0, r0 ∈ Demo.table ∧ form_id r0 = "F") ∧
  ∃ r, find_form_by_form_id "F" Demo.table = Some r ∧
       r ∈ Demo.table ∧ form_id r = "F" ∧
       ∀ r', r' ∈ Demo.table → form_id r' = "F" → version r' ≤ version r.
Proof.
  assert (∃ r0, r0 ∈ Demo.table ∧ form_id r0 = "F") as Hex.
  { exists (Demo.row 1 "F" "P" 1 None "active"). split; [left | reflexivity]. }
  split; [exact Hex|].
  exact (find_form_by_form_id_max_version "F" Demo.table Hex).
Defined.

(** C6 on the example table: row 2 is marked inactive, then updated to
    status [active]; it stays deleted and [find_all_forms] does not list
    it. *)
Lemma mark_inactive_is_permanent_witness :
  let self := Demo.row 2 "F" "P" 2 None "active" in
  let w := {| db := Demo.table; log := [] |} in
  let w1 := {| db := (@mark_inactive Demo.collaborators self (db w)).2;
               log := [] |} in
  let marked := (@mark_inactive Demo.collaborators self (db w)).1 in
  let bag : gmap string pyval := {[ "status" := PStr "active" ]} in
  @save_inserts Demo.collaborators ∧ self ∈ db w ∧
  ∃ self' t',
    update marked bag (db w1) = Return (self', t') ∧
    status self' = Some "active" ∧
    (∀ r, r ∈ t' → id r = 2 → deleted r = Some true) ∧
    @find_all_forms Demo.collaborators (Demo.caller None) None None None None
       (Some ["P"; "Q"]) None None [] t'
      = Return ([ [PInt 3; PStr "Defaultflow"; PStr "G"; PStr "Form G"; PNone;
                   PStr "active"; PBool false; PStr "form"; PNone; PNone] ], 1).
Proof.
  intros self w w1 marked bag.
  assert (self ∈ db w) as Hself by (right; left).
  split; [exact demo_save_inserts|]. split; [exact Hself|].
  destruct (update marked bag (db w1)) as [[self' t']|e] eqn:Hu;
    [|vm_compute in Hu; discriminate Hu].
  exists self', t'. split; [reflexivity|].
  destruct (@mark_inactive_is_permanent Demo.collaborators self w
              demo_save_inserts Hself) as [(_ & _ & _ & Hin & _) Hafter].
  destruct (Hafter {| db := t'; log := [] |}) as [Hdel _].
  { eapply rtc_l; [|apply rtc_refl].
    exact (step_update marked bag w1 self' t' Hin Hu). }
  split; [|split; [exact Hdel|]].
  - vm_compute in Hu. injection Hu as <- _. reflexivity.
  - vm_compute in Hu. injection Hu as _ <-. vm_compute. reflexivity.
Defined.

(** * Further properties *)

Section MoreProperties.
Context `{Collaborators}.

(** ** create_from_dict: what is passed to [save], and what is rejected *)

Lemma new_mapper_first_missing (mapper_info : gmap string pyval) (key : string) :
  first_missing_key mapper_info = Some key →
  new_mapper mapper_info = Raise (KeyError key).
Proof.
  unfold first_missing_key, required_keys, new_mapper, getitem. simpl.
  repeat match goal with
  | |- (if bool_decide (mapper_info !! ?k = None) then _ else _) = _ → _ =>
      destruct (mapper_info !! k) eqn:?;
      [ rewrite (bool_decide_eq_false_2 (Some _ = None)) by done; simpl
      | rewrite bool_decide_eq_true_2 by done; by intros [= <-] ]
  end.
  done.
Qed.

Lemma first_missing_key_None (mapper_info : gmap string pyval) :
  first_missing_key mapper_info = None →
  ∀ key, key ∈ required_keys → is_Some (mapper_info !! key).
Proof.
  unfold first_missing_key. intros Hf key Hk.
  destruct (mapper_info !! key) eqn:Hl; [by eexists|].
  apply list_elem_of_In in Hk.
  eapply find_none in Hf; [|done]. simpl in Hf.
  by rewrite bool_decide_eq_false in Hf.
Qed.

Lemma new_mapper_returns (mapper_info : gmap string pyval) :
  first_missing_key mapper_info = None →
  ∃ mapper, new_mapper mapper_info = Return mapper ∧
    (∀ key, key ∈ created_attributes →
            mapper !! key = Some (dict_get mapper_info key)) ∧
    (∀ key, key ∉ created_attributes → mapper !! key = None).
Proof.
  intros Hf. pose proof (first_missing_key_None _ Hf) as Hreq.
  assert (∀ key, key ∈ required_keys →
                 getitem mapper_info key = Return (dict_get mapper_info key))
    as Hget.
  { intros key Hk. destruct (Hreq key Hk) as [v Hv].
    unfold getitem, dict_get. by rewrite Hv. }
  unfold new_mapper.
  rewrite (Hget "form_id"), (Hget "form_name"), (Hget "form_type"),
    (Hget "parent_form_id"), (Hget "created_by")
    by (apply (bool_decide_unpack _); by vm_compute).
  simpl. eexists. split; [done|]. split.
  - intros key Hk. unfold created_attributes in Hk.
    repeat (apply elem_of_cons in Hk as [->|Hk]; [by vm_compute|]).
    by apply not_elem_of_nil in Hk.
  - intros key Hk. unfold created_attributes in Hk.
    repeat (apply not_elem_of_cons in Hk as [? Hk]).
    by rewrite !lookup_insert_ne, lookup_empty.
Qed.

(** X1.  A call of [create_from_dict] that answers with the error pair
    leaves the table as it was and adds at most one entry to the log; on
    the empty bag it adds none and does not call [save]. *)
Theorem create_from_dict_rejection_keeps_table :
  (∀ w, create_from_dict ∅ w = (Return bad_request_response, w)) ∧
  (∀ mapper_info w response status w',
     create_from_dict mapper_info w = (Return (Response response status), w') →
     db w' = db w ∧ (log w' = log w ∨ ∃ err, log w' = log w ++ [err])).
Proof.
  split.
  - by intros [t l].
  - intros mapper_info w response status w'. unfold create_from_dict.
    destruct (try_create mapper_info (db w)) as [[[m t']|]|e];
      intros [= <-]; simplify_eq/=.
    + split; [done|]. by left.
    + split; [done|]. right. by eexists.
Qed.

(** X2.  When the bag is not empty and lacks a required key, the error
    that [create_from_dict] logs is the [KeyError] of the first missing
    key in the order [form_id], [form_name], [form_type], [parent_form_id],
    [created_by]; [save] is not called and the table is unchanged. *)
Theorem create_from_dict_logs_first_missing_key
    (mapper_info : gmap string pyval) (w : World) (key : string) :
  mapper_info ≠ ∅ →
  first_missing_key mapper_info = Some key →
  create_from_dict mapper_info w =
    (Return bad_request_response,
     {| db := db w; log := log w ++ [KeyError key] |}).
Proof.
  intros Hne Hk. unfold create_from_dict, try_create, dict_truthy.
  rewrite bool_decide_eq_false_2 by done. simpl.
  by rewrite (new_mapper_first_missing _ _ Hk).
Qed.

(** X3.  When the bag has the five required keys, [create_from_dict] calls
    [save] on an object that has exactly the fifteen attributes of the
    [try] block, each with the value that the bag gives its key ([None]
    for an absent optional key); any other key of the bag, such as [id] or
    [deleted], is ignored.  The result is the persisted row when [save]
    returns, and the error pair with the logged exception when it raises. *)
Theorem create_from_dict_saves_named_attributes
    (mapper_info : gmap string pyval) (w : World) :
  first_missing_key mapper_info = None →
  ∃ mapper,
    (∀ key, key ∈ created_attributes →
            mapper !! key = Some (dict_get mapper_info key)) ∧
    (∀ key, key ∉ created_attributes → mapper !! key = None) ∧
    create_from_dict mapper_info w =
      match save mapper (db w) with
      | Return (row, t') => (Return (Mapper row), {| db := t'; log := log w |})
      | Raise err =>
          (Return bad_request_response,
           {| db := db w; log := log w ++ [err] |})
      end.
Proof.
  intros Hf.
  destruct (new_mapper_returns _ Hf) as (mapper & Hn & Hin & Hout).
  exists mapper. split_and!; [done..|].
  assert (dict_truthy mapper_info = true) as Ht.
  { destruct (first_missing_key_None _ Hf "form_id") as [v Hv].
    - apply (bool_decide_unpack _). by vm_compute.
    - unfold dict_truthy. rewrite bool_decide_eq_false_2; [done|].
      intros ->. by rewrite lookup_empty in Hv. }
  unfold create_from_dict, try_create. rewrite Ht, Hn. simpl.
  by destruct (save mapper (db w)) as [[row t']|e].
Qed.

(** ** Lookups by primary key *)

Lemma find_form_by_id_head (i : Z) (t : Table) :
  find_form_by_id i t = head (List.filter (fun r => id r =? i) t).
Proof.
  unfold find_form_by_id, query_first, query_all, matching. simpl.
  rewrite drop_0. f_equal. apply filter_ext. intros r.
  unfold id_is. apply andb_true_r.
Qed.

Lemma filter_nil_iff {A} (f : A → bool) (l : list A) :
  List.filter f l = [] ↔ ∀ x, x ∈ l → f x = false.
Proof.
  induction l as [|x l IH]; simpl.
  - split; [|done]. intros _ x Hx. by apply not_elem_of_nil in Hx.
  - destruct (f x) eqn:Hf.
    + split; [done|]. intros Hall. specialize (Hall x). rewrite Hf in Hall.
      discriminate Hall. left.
    + rewrite IH. split.
      * intros Hall y [->|Hy]%elem_of_cons; [done | by apply Hall].
      * intros Hall y Hy. apply Hall. by right.
Qed.

(** X4.  [find_form_by_id] returns a row of the table with the given
    primary key, and returns [None] exactly when no row has that key;
    [find_form_by_form_id] returns [None] exactly when no row has the
    given [form_id]. *)
Theorem lookups_find_what_is_there (t : Table) :
  (∀ i r, find_form_by_id i t = Some r → r ∈ t ∧ id r = i) ∧
  (∀ i, find_form_by_id i t = None ↔ i ∉ map id t) ∧
  (∀ f, find_form_by_form_id f t = None ↔ f ∉ map form_id t).
Proof.
  split_and!.
  - intros i r. rewrite find_form_by_id_head. intros Hh.
    assert (r ∈ List.filter (fun r => id r =? i) t) as Hr.
    { destruct (List.filter _ t); simplify_eq/=. left. }
    apply elem_of_List_filter in Hr as [Hr Hi]. split; [done | lia].
  - intros i. rewrite find_form_by_id_head. split.
    + intros Hh%head_None_nil Hin.
      apply list_elem_of_fmap in Hin as (r & -> & Hr).
      rewrite filter_nil_iff in Hh. specialize (Hh r Hr). lia.
    + intros Hni.
      assert (List.filter (fun r => id r =? i) t = []) as ->; [|done].
      apply filter_nil_iff. intros r Hr. apply Z.eqb_neq. intros <-.
      apply Hni. apply list_elem_of_fmap. by exists r.
  - intros f. unfold find_form_by_form_id, query_first, query_all, matching.
    simpl. rewrite drop_0.
    pose proof (sort_rows_perm version_desc
                  (List.filter (holds_all [form_id_is f]) t)) as Hperm.
    split.
    + intros Hh Hin. apply list_elem_of_fmap in Hin as (r & -> & Hr).
      destruct (sort_rows version_desc _) as [|h s] eqn:Hs; [|done].
      apply Permutation_nil in Hperm. rewrite filter_nil_iff in Hperm.
      specialize (Hperm r Hr). simpl in Hperm. unfold form_id_is in Hperm.
      by rewrite String.eqb_refl in Hperm.
    + intros Hni.
      assert (List.filter (holds_all [form_id_is f]) t = []) as Hnil.
      { apply filter_nil_iff. intros r Hr. simpl. unfold form_id_is.
        rewrite andb_true_r. apply String.eqb_neq. intros <-.
        apply Hni. apply list_elem_of_fmap. by exists r. }
      by rewrite Hnil.
Qed.

(** X5.  Create, then look up.  When [save] inserts, the row that a
    successful [create_from_dict] returns is the one that
    [find_form_by_id] finds under its primary key in the new table; the
    table has grown by that row, and the lookup of any other key answers
    as it did before. *)
Theorem create_then_find_form_by_id (mapper_info : gmap string pyval)
    (w w' : World) (m : FormProcessMapper) :
  save_inserts →
  create_from_dict mapper_info w = (Return (Mapper m), w') →
  db w' = db w ++ [m] ∧
  find_form_by_id (id m) (db w') = Some m ∧
  ∀ i, i ≠ id m → find_form_by_id i (db w') = find_form_by_id i (db w).
Proof.
  intros Hsave. unfold create_from_dict.
  destruct (try_create mapper_info (db w)) as [[[row t']|]|e] eqn:Ht;
    intros Hc; simplify_eq/=.
  unfold try_create in Ht. destruct (dict_truthy mapper_info); [|done].
  apply bind_Return in Ht as (mapper & _ & Ht).
  apply bind_Return in Ht as ([row t''] & Hs & Ht).
  apply Return_inj in Ht. injection Ht as -> ->.
  apply Hsave in Hs as [-> Hfresh]. split; [done|]. split.
  - rewrite find_form_by_id_head, List.filter_app. simpl.
    rewrite Z.eqb_refl.
    assert (List.filter (fun r => id r =? id m) (db w) = []) as ->; [|done].
    apply filter_nil_iff. intros r Hr. apply Z.eqb_neq. intros Hi.
    apply Hfresh. rewrite <- Hi. apply list_elem_of_fmap. by exists r.
  - intros i Hi. rewrite !find_form_by_id_head, List.filter_app. simpl.
    destruct (Z.eqb_spec (id m) i) as [?|_]; [done|]. by rewrite app_nil_r.
Qed.

(** ** A caller without tenant *)

(** X6.  When the context has no tenant, [tenant_authorization] returns
    the query as it is and [access_filter] adds the status condition only:
    the rows of every tenant stay in the result. *)
Theorem no_tenant_no_tenant_condition (amb : Ambient) (q : Query) :
  tenant_key (user amb) = None →
  tenant_authorization amb (PyQuery q) = Return q ∧
  ∃ q', access_filter amb (PyQuery q) = Return q' ∧
        q_order q' = q_order q ∧
        ∀ (t : Table) r,
          r ∈ matching q' t ↔ r ∈ matching q t ∧ status r = Some ACTIVE.
Proof.
  intros Htk. unfold tenant_authorization, access_filter. rewrite Htk.
  split; [done|]. eexists. split; [done|]. split; [done|].
  intros t r. rewrite !elem_of_matching. simpl.
  rewrite holds_all_app. simpl. unfold status_is.
  rewrite andb_true_r, andb_true_iff, eq_str_true. tauto.
Qed.

(** ** The listings of the latest rows *)

Lemma in_Z_true (c : Z) (vs : list Z) : in_Z c vs = true ↔ c ∈ vs.
Proof.
  unfold in_Z. rewrite existsb_exists. split.
  - intros (v & Hv & ->%Z.eqb_eq). by apply list_elem_of_In.
  - intros Hc. exists c. split; [by apply list_elem_of_In | apply Z.eqb_refl].
Qed.

Lemma in_str_true (c : option string) (vs : list string) :
  in_str c vs = true ↔ ∃ v, c = Some v ∧ v ∈ vs.
Proof.
  unfold in_str. rewrite existsb_exists. split.
  - intros (v & Hv & Hc%eq_str_true). exists v. by rewrite list_elem_of_In.
  - intros (v & -> & Hv). exists v. rewrite <- list_elem_of_In.
    split; [done|]. by apply eq_str_true.
Qed.

Lemma NoDup_id_eq (t : Table) (r r' : FormProcessMapper) :
  NoDup (map id t) → r ∈ t → r' ∈ t → id r = id r' → r = r'.
Proof.
  induction t as [|x t IH]; simpl; [by intros _ Hr%not_elem_of_nil|].
  intros [Hx Ht]%NoDup_cons [->|Hr]%elem_of_cons [->|Hr']%elem_of_cons Hi;
    [done| | |by apply IH].
  - destruct Hx. rewrite Hi. apply list_elem_of_fmap. by exists r'.
  - destruct Hx. rewrite <- Hi. apply list_elem_of_fmap. by exists r.
Qed.

Lemma latest_ids_in_elem (t : Table) form_ids ids (r : FormProcessMapper) :
  NoDup (map id t) →
  latest_ids_in (get_latest_form_mapper_ids t) form_ids = Return ids →
  r ∈ t → id r ∈ ids →
  (∃ wanted, form_ids = Some wanted ∧ parent_form_id r ∈ wanted) ∧
  ∀ r', r' ∈ t → parent_form_id r' = parent_form_id r → id r' ≤ id r.
Proof.
  intros Hnd Hl Hr Hi. unfold latest_ids_in in Hl.
  destruct form_ids as [wanted|].
  - apply Return_inj in Hl as <-.
    apply list_elem_of_fmap in Hi as (e & Hid & He).
    apply elem_of_List_filter in He as [He Hw].
    apply bool_decide_eq_true in Hw.
    apply elem_of_get_latest_form_mapper_ids in He as [_ Hm].
    apply sql_max_Some in Hm as [Hin Hle].
    apply list_elem_of_fmap in Hin as (r0 & Hid0 & Hr0).
    apply elem_of_group_rows in Hr0 as [Hr0 Hp0].
    assert (r = r0) as <- by (eapply NoDup_id_eq; [done..|congruence]).
    split; [exists wanted; by rewrite Hp0|].
    intros r' Hr' Hp'. rewrite Hid. apply Hle. apply list_elem_of_fmap.
    exists r'. split; [done|]. apply elem_of_group_rows. split; congruence.
  - destruct (get_latest_form_mapper_ids t); [|done].
    apply Return_inj in Hl as <-. by apply not_elem_of_nil in Hi.
Qed.

(** The properties of a row behind an item of [find_all_forms]. *)
Lemma find_all_forms_rows_spec amb page_number limit sort_by sort_order
    form_ids is_active types filters (t : Table) rows n r :
  NoDup (map id t) →
  find_all_forms_rows amb page_number limit sort_by sort_order form_ids
                      is_active types filters t = Return (rows, n) →
  r ∈ rows →
  r ∈ t ∧ deleted r = Some false ∧
  (∃ wanted, form_ids = Some wanted ∧ parent_form_id r ∈ wanted) ∧
  (∀ r', r' ∈ t → parent_form_id r' = parent_form_id r → id r' ≤ id r) ∧
  (∀ active, is_active = Some active →
             status r = Some (if active then ACTIVE else INACTIVE)) ∧
  (∀ x xs, types = Some (x :: xs) → form_type r ∈ x :: xs).
Proof.
  intros Hnd Hf Hr.
  destruct (find_all_forms_rows_not_deleted _ _ _ _ _ _ _ _ _ _ _ _ _ Hf Hr)
    as [Hin Hdel].
  apply find_all_forms_rows_inv in Hf as (q & Hq & Hp).
  apply find_all_forms_query_inv in Hq as (q0 & ids & q1 & _ & Hids & Hq & ->).
  eapply count_and_paginate_rows in Hp as [_ Hh]; [|done].
  rewrite apply_sort_filter in Hh.
  apply tenant_authorization_filter in Hq as [_ Hq]. rewrite Hq in Hh.
  rewrite holds_all_app, andb_true_iff in Hh. destruct Hh as [Hh _].
  set (qa := query_filter q0 [and_ [not_deleted]; id_in ids]) in Hh.
  set (qb := if list_truthy types
             then query_filter qa [form_type_in (default [] types)]
             else qa) in Hh.
  assert (holds_all (q_filter qb) r = true ∧
          ∀ active, is_active = Some active →
                    status r = Some (if active then ACTIVE else INACTIVE))
    as [Hb Hst].
  { destruct is_active as [active|]; [|done].
    cbn [q_filter query_filter] in Hh.
    rewrite holds_all_app, andb_true_iff in Hh. destruct Hh as [Hb Hs].
    split; [done|]. intros ? [= <-]. simpl in Hs. unfold status_is in Hs.
    rewrite andb_true_r in Hs. by apply eq_str_true. }
  assert (holds_all (q_filter qa) r = true ∧
          ∀ x xs, types = Some (x :: xs) → form_type r ∈ x :: xs)
    as [Ha Hty].
  { unfold qb in Hb. destruct types as [[|x xs]|]; simpl in Hb; try done.
    rewrite holds_all_app, andb_true_iff in Hb. destruct Hb as [Ha Ht].
    split; [done|]. intros ?? [= <- <-].
    cbn [holds_all forallb] in Ht. unfold form_type_in in Ht.
    rewrite andb_true_r in Ht.
    apply in_str_true in Ht as (v & [= <-] & Hv). done. }
  assert (id r ∈ ids) as Hid.
  { unfold qa in Ha. cbn [q_filter query_filter] in Ha.
    rewrite holds_all_app, andb_true_iff in Ha. destruct Ha as [_ Ha].
    cbn [holds_all forallb] in Ha. unfold id_in in Ha.
    rewrite andb_true_r, andb_true_iff in Ha. destruct Ha as [_ Ha].
    by apply in_Z_true. }
  destruct (latest_ids_in_elem _ _ _ _ Hnd Hids Hin Hid) as [Hw Hmax].
  by split_and!.
Qed.

(** The properties of a row behind an item of [find_all_active_by_formid]. *)
Lemma find_all_active_by_formid_rows_spec amb page_number limit sort_by
    sort_order form_ids filters (t : Table) rows n r :
  NoDup (map id t) →
  find_all_active_by_formid_rows amb page_number limit sort_by sort_order
                                 form_ids filters t = Return (rows, n) →
  r ∈ rows →
  r ∈ t ∧ status r = Some ACTIVE ∧
  (∃ wanted, form_ids = Some wanted ∧ parent_form_id r ∈ wanted) ∧
  (∀ r', r' ∈ t → parent_form_id r' = parent_form_id r → id r' ≤ id r).
Proof.
  intros Hnd Hf Hr.
  apply find_all_active_by_formid_rows_inv in Hf as (q & Hq & Hp).
  apply find_all_active_by_formid_query_inv in Hq
    as (q0 & ids & q1 & _ & Hids & Hq & ->).
  eapply count_and_paginate_rows in Hp as [Hin Hh]; [|done].
  rewrite apply_sort_filter in Hh.
  apply access_filter_filter in Hq as [_ Hq]. rewrite Hq in Hh.
  cbn [q_filter query_filter] in Hh.
  rewrite !holds_all_app, !andb_true_iff in Hh.
  destruct Hh as [[_ Hi] [Hs _]].
  cbn [holds_all forallb] in Hi, Hs. unfold id_in, status_is in Hi, Hs.
  rewrite andb_true_r in Hi, Hs.
  apply in_Z_true in Hi. apply eq_str_true in Hs.
  destruct (latest_ids_in_elem _ _ _ _ Hnd Hids Hin Hi) as [Hw Hmax].
  by split_and!.
Qed.

(** X7.  In a table with a primary key, every item of [find_all_forms] is
    the projection of a row that is not deleted, whose [parent_form_id] is
    one of the given [form_ids], and that is the latest of its lineage: no
    row with the same [parent_form_id] has a larger id.  With [is_active]
    given, its status is the one asked for; with a non-empty [form_type]
    list, its form type is in the list. *)
Theorem find_all_forms_lists_latest_rows amb page_number limit sort_by
    sort_order form_ids is_active types filters (t : Table) items n item :
  NoDup (map id t) →
  find_all_forms amb page_number limit sort_by sort_order form_ids is_active
                 types filters t = Return (items, n) →
  item ∈ items →
  ∃ r, r ∈ t ∧ item = with_entities find_all_forms_entities r ∧
       deleted r = Some false ∧
       (∃ wanted, form_ids = Some wanted ∧ parent_form_id r ∈ wanted) ∧
       (∀ r', r' ∈ t → parent_form_id r' = parent_form_id r → id r' ≤ id r) ∧
       (∀ active, is_active = Some active →
                  status r = Some (if active then ACTIVE else INACTIVE)) ∧
       (∀ x xs, types = Some (x :: xs) → form_type r ∈ x :: xs).
Proof.
  intros Hnd Hf Hi.
  apply find_all_forms_items in Hf as (rows & Hrows & ->).
  apply list_elem_of_fmap in Hi as (r & -> & Hr).
  destruct (find_all_forms_rows_spec _ _ _ _ _ _ _ _ _ _ _ _ _ Hnd Hrows Hr)
    as (? & ? & ? & ? & ? & ?).
  exists r. by split_and!.
Qed.

Lemma latest_row_id_in (t : Table) (wanted : list string)
    (r : FormProcessMapper) :
  r ∈ t → parent_form_id r ∈ wanted →
  (∀ r', r' ∈ t → parent_form_id r' = parent_form_id r → id r' ≤ id r) →
  ∃ ids, latest_ids_in (get_latest_form_mapper_ids t) (Some wanted)
           = Return ids ∧ id r ∈ ids.
Proof.
  intros Hr Hw Hmax. eexists. split; [done|].
  apply list_elem_of_fmap.
  exists {| li_id := id r; li_parent_form_id := parent_form_id r |}.
  split; [done|]. apply elem_of_List_filter. simpl.
  split; [|by apply bool_decide_eq_true].
  apply elem_of_get_latest_form_mapper_ids. simpl.
  split; [apply list_elem_of_fmap; by exists r|].
  assert (id r ∈ map id (group_rows (parent_form_id r) t)) as Hin.
  { apply list_elem_of_fmap. exists r. split; [done|].
    by apply elem_of_group_rows. }
  destruct (sql_max (map id (group_rows (parent_form_id r) t))) as [m|] eqn:Hm.
  - apply sql_max_Some in Hm as [Hm Hle]. f_equal.
    apply list_elem_of_fmap in Hm as (r0 & -> & Hr0).
    apply elem_of_group_rows in Hr0 as [Hr0 Hp0].
    specialize (Hmax r0 Hr0 Hp0). specialize (Hle (id r) Hin). lia.
  - apply sql_max_None in Hm. rewrite Hm in Hin.
    by apply not_elem_of_nil in Hin.
Qed.

(** X8.  In a table with a primary key, every item of
    [find_all_active_by_formid] is the projection of a row with status
    ACTIVE, whose [parent_form_id] is one of the given [form_ids] and that
    is the latest of its lineage.  Conversely, called without filters and
    without limit, for page 1, it lists every such row of the caller's
    tenant: the [deleted] flag is no condition, and a deleted row is listed
    like any other. *)
Theorem find_all_active_by_formid_lists_latest_rows amb sort_by sort_order
    (t : Table) :
  NoDup (map id t) →
  (∀ page_number limit form_ids filters items n item,
     find_all_active_by_formid amb page_number limit sort_by sort_order
                               form_ids filters t = Return (items, n) →
     item ∈ items →
     ∃ r, r ∈ t ∧ item = with_entities find_all_active_by_formid_entities r ∧
          status r = Some ACTIVE ∧
          (∃ wanted, form_ids = Some wanted ∧ parent_form_id r ∈ wanted) ∧
          (∀ r', r' ∈ t → parent_form_id r' = parent_form_id r →
                 id r' ≤ id r)) ∧
  (∀ page_number wanted,
     served_page amb page_number = 1 →
     ∃ items,
       find_all_active_by_formid amb page_number None sort_by sort_order
                                 (Some wanted) [] t
         = Return (items, Z.of_nat (length items)) ∧
       ∀ r flag,
         r ∈ t → deleted r = flag → status r = Some ACTIVE →
         (∀ T, tenant_key (user amb) = Some T → tenant r = Some T) →
         parent_form_id r ∈ wanted →
         (∀ r', r' ∈ t → parent_form_id r' = parent_form_id r →
                id r' ≤ id r) →
         with_entities find_all_active_by_formid_entities r ∈ items).
Proof.
  intros Hnd. split.
  - intros page_number limit form_ids filters items n item Hf Hi.
    apply find_all_active_by_formid_items in Hf as (rows & Hrows & ->).
    apply list_elem_of_fmap in Hi as (r & -> & Hr).
    destruct (find_all_active_by_formid_rows_spec _ _ _ _ _ _ _ _ _ _ _
                Hnd Hrows Hr) as (? & ? & ? & ?).
    exists r. by split_and!.
  - intros page_number wanted Hpage.
    destruct (find_all_active_by_formid amb page_number None sort_by
                sort_order (Some wanted) [] t) as [[items n]|e] eqn:Hf.
    + exists items.
      apply find_all_active_by_formid_items in Hf as (rows & Hrows & ->).
      apply find_all_active_by_formid_rows_inv in Hrows as (q & Hq & Hp).
      pose proof (unpaged_find_all_active_by_formid_query _ _ _ _ _ _ _ Hq)
        as Hu.
      destruct (count_and_paginate_spec _ _ _ _ _ _ _ Hu Hp)
        as (-> & Hall & _).
      rewrite (Hall eq_refl Hpage), length_map. split; [done|].
      intros r flag Hr _ Hs Ht Hw Hmax.
      apply list_elem_of_fmap. exists r. split; [done|].
      apply elem_of_matching. split; [done|].
      apply find_all_active_by_formid_query_inv in Hq
        as (q0 & ids & q1 & Hq0 & Hids & Hq1 & ->).
      apply Return_inj in Hq0 as <-.
      destruct (latest_row_id_in t wanted r Hr Hw Hmax) as (ids' & Hids' & Hin).
      rewrite Hids in Hids'. injection Hids' as <-.
      apply access_filter_filter in Hq1 as [_ Hq1].
      rewrite apply_sort_filter, Hq1. simpl. unfold id_in, status_is.
      rewrite (proj2 (in_Z_true _ _) Hin), (proj2 (eq_str_true _ _) Hs). simpl.
      destruct (tenant_key (user amb)) as [T|]; [|done]. simpl.
      unfold tenant_is. by rewrite (proj2 (eq_str_true _ _) (Ht T eq_refl)).
    + unfold find_all_active_by_formid, find_all_active_by_formid_rows,
        find_all_active_by_formid_query, access_filter in Hf. simpl in Hf.
      by destruct (tenant_key (user amb)).
Qed.

(** X9.  When the latest row of a lineage is deleted, [find_all_forms]
    shows no row of that lineage: an earlier version does not take the
    place of the deleted one. *)
Theorem deleted_latest_row_hides_lineage amb page_number limit sort_by
    sort_order form_ids is_active types filters (t : Table) items n
    (latest : FormProcessMapper) :
  NoDup (map id t) →
  latest ∈ t →
  (∀ r', r' ∈ t → parent_form_id r' = parent_form_id latest →
         id r' ≤ id latest) →
  deleted latest ≠ Some false →
  find_all_forms amb page_number limit sort_by sort_order form_ids is_active
                 types filters t = Return (items, n) →
  ∀ item, item ∈ items →
    ∃ r, r ∈ t ∧ item = with_entities find_all_forms_entities r ∧
         parent_form_id r ≠ parent_form_id latest.
Proof.
  intros Hnd Hl Hmax Hdel Hf item Hi.
  apply find_all_forms_items in Hf as (rows & Hrows & ->).
  apply list_elem_of_fmap in Hi as (r & -> & Hr).
  destruct (find_all_forms_rows_spec _ _ _ _ _ _ _ _ _ _ _ _ _ Hnd Hrows Hr)
    as (Hin & Hnd' & _ & Hmax' & _).
  exists r. split_and!; [done..|]. intros Hp.
  assert (r = latest) as ->; [|done].
  eapply NoDup_id_eq; [done..|].
  specialize (Hmax r Hin Hp). specialize (Hmax' latest Hl (eq_sym Hp)). lia.
Qed.

(** ** Arguments that make a listing raise *)

Lemma get_latest_form_mapper_ids_nonempty (t : Table) :
  t ≠ [] → get_latest_form_mapper_ids t ≠ [].
Proof.
  destruct t as [|r t]; [done|]. intros _ Hnil.
  assert (r ∈ group_rows (parent_form_id r) (r :: t)) as Hg.
  { apply elem_of_group_rows. split; [left | done]. }
  destruct (sql_max (map id (group_rows (parent_form_id r) (r :: t))))
    as [m|] eqn:Hm.
  - assert ({| li_id := m; li_parent_form_id := parent_form_id r |}
              ∈ get_latest_form_mapper_ids (r :: t)) as He.
    { apply elem_of_get_latest_form_mapper_ids. split; [left | done]. }
    rewrite Hnil in He. by apply not_elem_of_nil in He.
  - apply sql_max_None, map_eq_nil in Hm. rewrite Hm in Hg.
    by apply not_elem_of_nil in Hg.
Qed.

(** X10.  [find_all_forms] and [find_all_active_by_formid] called without
    [form_ids] on a table that has a row raise the [TypeError] of the
    membership test in [None], whatever the other arguments are. *)
Theorem listing_without_form_ids_raises amb page_number limit sort_by
    sort_order is_active types filters (t : Table) :
  t ≠ [] →
  find_all_forms amb page_number limit sort_by sort_order None is_active
                 types filters t
    = Raise (TypeError "argument of type 'NoneType' is not iterable") ∧
  find_all_active_by_formid amb page_number limit sort_by sort_order None
                            filters t
    = Raise (TypeError "argument of type 'NoneType' is not iterable").
Proof.
  intros Ht. pose proof (get_latest_form_mapper_ids_nonempty t Ht) as Hl.
  unfold find_all_forms, find_all_forms_rows, find_all_forms_query,
    find_all_active_by_formid, find_all_active_by_formid_rows,
    find_all_active_by_formid_query, latest_ids_in.
  by destruct (get_latest_form_mapper_ids t).
Qed.

Lemma filter_conditions_loop_raises filters key value acc :
  (key, value) ∈ filters → truthy value = true → FILTER_MAPS !! key = None →
  ∃ e, filter_conditions_loop filters acc = Raise e.
Proof.
  intros Hin Hv Hk. revert acc.
  induction filters as [|[k v] filters IH]; intros acc;
    [by apply not_elem_of_nil in Hin|].
  apply elem_of_cons in Hin as [[= <- <-]|Hin]; simpl.
  - rewrite Hv, Hk. by eexists.
  - destruct (truthy v); [|by apply IH].
    destruct (FILTER_MAPS !! k); [|by eexists].
    destruct (create_filter_condition _ _ v); simpl; [by apply IH | by eexists].
Qed.

(** X11.  A filter with a truthy value under a name that [FILTER_MAPS]
    does not have makes [filter_conditions] raise, and with it each of the
    three listings. *)
Theorem unknown_filter_name_raises filters key value :
  (key, value) ∈ filters → truthy value = true → FILTER_MAPS !! key = None →
  (∃ e, filter_conditions filters = Raise e) ∧
  (∀ amb page_number limit sort_by sort_order process_keys (t : Table),
     ∃ e, find_all_active amb page_number limit sort_by sort_order
                          process_keys filters t = Raise e) ∧
  (∀ amb page_number limit sort_by sort_order form_ids is_active types
     (t : Table),
     ∃ e, find_all_forms amb page_number limit sort_by sort_order form_ids
                         is_active types filters t = Raise e) ∧
  (∀ amb page_number limit sort_by sort_order form_ids (t : Table),
     ∃ e, find_all_active_by_formid amb page_number limit sort_by sort_order
                                    form_ids filters t = Raise e).
Proof.
  intros Hin Hv Hk.
  assert (∃ e, filter_conditions filters = Raise e) as [e He].
  { destruct (filter_conditions_loop_raises _ _ _ [] Hin Hv Hk) as [e He].
    exists e. unfold filter_conditions. by rewrite He. }
  split_and!.
  - by exists e.
  - intros. exists e.
    unfold find_all_active, find_all_active_rows, find_all_active_query.
    by rewrite He.
  - intros.
    unfold find_all_forms, find_all_forms_rows, find_all_forms_query.
    destruct (latest_ids_in _ form_ids) as [ids|e']; simpl; [|by eexists].
    rewrite He. by eexists.
  - intros.
    unfold find_all_active_by_formid, find_all_active_by_formid_rows,
      find_all_active_by_formid_query.
    destruct (latest_ids_in _ form_ids) as [ids|e']; simpl; [|by eexists].
    rewrite He. by eexists.
Qed.

Lemma filter_conditions_loop_conditions filters acc cs :
  filter_conditions_loop filters acc = Return cs →
  ∃ cs', cs = acc ++ cs' ∧
    Forall2 (fun kv c =>
               ∃ fm, FILTER_MAPS !! kv.1 = Some fm ∧
                     create_filter_condition (fm_field fm) (fm_operator fm) kv.2
                       = Return c)
            (List.filter (fun kv => truthy kv.2) filters) cs'.
Proof.
  revert acc. induction filters as [|[k v] filters IH]; intros acc; simpl.
  - intros [= <-]. exists []. by rewrite app_nil_r.
  - destruct (truthy v) eqn:Hv; [|apply IH].
    destruct (FILTER_MAPS !! k) as [fm|] eqn:Hk; [|done].
    intros Hl. apply bind_Return in Hl as (c & Hc & Hl).
    apply IH in Hl as (cs' & -> & Hall).
    exists (c :: cs'). split; [by rewrite <- app_assoc|].
    constructor; [|done]. by exists fm.
Qed.

(** X12.  When [filter_conditions] returns, the query has one condition
    for each filter with a truthy value, in the order of the filters, and
    no other: the condition that [create_filter_condition] gives for the
    column and operator of the filter's name in [FILTER_MAPS] and for the
    filter's value. *)
Theorem filter_conditions_one_condition_per_filter filters (q : Query) :
  filter_conditions filters = Return q →
  q_order q = None ∧ q_limit q = None ∧ q_offset q = 0%nat ∧
  Forall2 (fun kv c =>
             ∃ fm, FILTER_MAPS !! kv.1 = Some fm ∧
                   create_filter_condition (fm_field fm) (fm_operator fm) kv.2
                     = Return c)
          (List.filter (fun kv => truthy kv.2) filters) (q_filter q).
Proof.
  unfold filter_conditions. intros Hf.
  apply bind_Return in Hf as (cs & Hl & Hq). apply Return_inj in Hq as <-.
  apply filter_conditions_loop_conditions in Hl as (cs' & -> & Hall).
  simpl in *. by destruct cs'.
Qed.

(** ** Empty lists as arguments *)

(** X13.  An empty [process_key] list is not the same as no list:
    [find_all_active] then matches nothing and returns no item and the
    total 0.  An empty [form_type] list given to [find_all_forms] is the
    same as no list. *)
Theorem empty_list_arguments :
  (∀ amb page_number limit sort_by sort_order filters (t : Table) items n,
     find_all_active amb page_number limit sort_by sort_order (Some [])
                     filters t = Return (items, n) →
     items = [] ∧ n = 0) ∧
  (∀ amb page_number limit sort_by sort_order form_ids is_active filters
     (t : Table),
     find_all_forms amb page_number limit sort_by sort_order form_ids
                    is_active (Some []) filters t =
     find_all_forms amb page_number limit sort_by sort_order form_ids
                    is_active None filters t).
Proof.
  split; [|done].
  intros ??????? items n Hf.
  apply find_all_active_items in Hf as (rows & Hrows & ->).
  apply find_all_active_rows_inv in Hrows as (q & Hq & Hp).
  pose proof (unpaged_find_all_active_query _ _ _ _ _ _ Hq) as Hu.
  apply find_all_active_query_inv in Hq as (q0 & q1 & _ & Hq1 & ->).
  apply access_filter_filter in Hq1 as [_ Hq1].
  assert (matching (apply_sort sort_by sort_order q1) t = []) as Hm.
  { destruct (matching _ t) as [|r m] eqn:Hm; [done|].
    assert (r ∈ matching (apply_sort sort_by sort_order q1) t) as Hr
      by (rewrite Hm; left).
    apply elem_of_matching in Hr as [_ Hh].
    rewrite apply_sort_filter, Hq1 in Hh. cbn [q_filter query_filter] in Hh.
    rewrite !holds_all_app, !andb_true_iff in Hh.
    destruct Hh as [[_ Hh] _]. simpl in Hh. unfold process_key_in in Hh.
    simpl in Hh. discriminate Hh. }
  destruct (count_and_paginate_spec _ _ _ _ _ _ _ Hu Hp) as (-> & _).
  rewrite Hm. split; [|done].
  destruct rows as [|r rows]; [done|].
  eapply (count_and_paginate_rows _ _ _ _ _ _ _ r) in Hp as [Hr Hh]; [|left].
  assert (r ∈ matching (apply_sort sort_by sort_order q1) t) as Hin
    by by apply elem_of_matching.
  rewrite Hm in Hin. by apply not_elem_of_nil in Hin.
Qed.

(** ** Counts *)

Lemma length_matching (q : Query) (t : Table) :
  length (matching q t) = length (List.filter (holds_all (q_filter q)) t).
Proof. unfold matching. by rewrite order_rows_perm. Qed.

(** X14.  [find_all_count] is the number of rows with status ACTIVE, of
    any tenant and deleted or not; it is the total that [find_all_active]
    reports to a caller without tenant who gives no filter and no process
    keys. *)
Theorem find_all_count_counts_active_rows (t : Table) :
  find_all_count t =
    Z.of_nat (length (List.filter (fun r => eq_str (status r) ACTIVE) t)) ∧
  ∀ amb page_number limit sort_by sort_order,
    tenant_key (user amb) = None →
    ∃ items,
      find_all_active amb page_number limit sort_by sort_order None [] t
        = Return (items, find_all_count t).
Proof.
  assert (find_all_count t =
          Z.of_nat (length (List.filter (fun r => eq_str (status r) ACTIVE) t)))
    as Hc.
  { unfold find_all_count, query_count, query_all, matching. simpl.
    rewrite drop_0. do 2 f_equal. apply filter_ext. intros r.
    unfold status_is. apply andb_true_r. }
  split; [done|].
  intros amb page_number limit sort_by sort_order Htk.
  destruct (find_all_active amb page_number limit sort_by sort_order None [] t)
    as [[items n]|e] eqn:Hf.
  - exists items. do 2 f_equal.
    apply find_all_active_items in Hf as (rows & Hrows & ->).
    apply find_all_active_rows_inv in Hrows as (q & Hq & Hp).
    pose proof (unpaged_find_all_active_query _ _ _ _ _ _ Hq) as Hu.
    destruct (count_and_paginate_spec _ _ _ _ _ _ _ Hu Hp) as (-> & _).
    apply find_all_active_query_inv in Hq as (q0 & q1 & Hq0 & Hq1 & ->).
    apply Return_inj in Hq0 as <-.
    apply access_filter_filter in Hq1 as [_ Hq1]. rewrite Htk in Hq1.
    rewrite Hc, length_matching, apply_sort_filter, Hq1. simpl.
    do 2 f_equal. apply filter_ext. intros r.
    unfold status_is. apply andb_true_r.
  - unfold find_all_active, find_all_active_rows, find_all_active_query,
      access_filter in Hf. simpl in Hf. rewrite Htk in Hf. discriminate Hf.
Qed.

(** X15.  The total that a listing reports does not depend on the page,
    the limit or the sort arguments: two calls that differ only in these
    report the same total. *)
Theorem total_count_ignores_paging_and_sorting amb filters (t : Table) :
  (∀ process_keys p l sb so items n p' l' sb' so' items' n',
     find_all_active amb p l sb so process_keys filters t = Return (items, n) →
     find_all_active amb p' l' sb' so' process_keys filters t
       = Return (items', n') →
     n = n') ∧
  (∀ form_ids is_active types p l sb so items n p' l' sb' so' items' n',
     find_all_forms amb p l sb so form_ids is_active types filters t
       = Return (items, n) →
     find_all_forms amb p' l' sb' so' form_ids is_active types filters t
       = Return (items', n') →
     n = n') ∧
  (∀ form_ids p l sb so items n p' l' sb' so' items' n',
     find_all_active_by_formid amb p l sb so form_ids filters t
       = Return (items, n) →
     find_all_active_by_formid amb p' l' sb' so' form_ids filters t
       = Return (items', n') →
     n = n').
Proof.
  split_and!.
  - intros ????????????? Hf Hf'.
    apply find_all_active_items in Hf as (rows & Hrows & _).
    apply find_all_active_items in Hf' as (rows' & Hrows' & _).
    apply find_all_active_rows_inv in Hrows as (q & Hq & Hp).
    apply find_all_active_rows_inv in Hrows' as (q' & Hq' & Hp').
    pose proof (unpaged_find_all_active_query _ _ _ _ _ _ Hq) as Hu.
    pose proof (unpaged_find_all_active_query _ _ _ _ _ _ Hq') as Hu'.
    destruct (count_and_paginate_spec _ _ _ _ _ _ _ Hu Hp) as (-> & _).
    destruct (count_and_paginate_spec _ _ _ _ _ _ _ Hu' Hp') as (-> & _).
    apply find_all_active_query_inv in Hq as (q0 & q1 & Hq0 & Hq1 & ->).
    apply find_all_active_query_inv in Hq' as (q0' & q1' & Hq0' & Hq1' & ->).
    rewrite Hq0 in Hq0'. injection Hq0' as <-.
    rewrite Hq1 in Hq1'. injection Hq1' as <-.
    by rewrite !length_matching, !apply_sort_filter.
  - intros ??????????????? Hf Hf'.
    apply find_all_forms_items in Hf as (rows & Hrows & _).
    apply find_all_forms_items in Hf' as (rows' & Hrows' & _).
    apply find_all_forms_rows_inv in Hrows as (q & Hq & Hp).
    apply find_all_forms_rows_inv in Hrows' as (q' & Hq' & Hp').
    pose proof (unpaged_find_all_forms_query _ _ _ _ _ _ _ _ _ Hq) as Hu.
    pose proof (unpaged_find_all_forms_query _ _ _ _ _ _ _ _ _ Hq') as Hu'.
    destruct (count_and_paginate_spec _ _ _ _ _ _ _ Hu Hp) as (-> & _).
    destruct (count_and_paginate_spec _ _ _ _ _ _ _ Hu' Hp') as (-> & _).
    apply find_all_forms_query_inv in Hq
      as (q0 & ids & q1 & Hq0 & Hids & Hq1 & ->).
    apply find_all_forms_query_inv in Hq'
      as (q0' & ids' & q1' & Hq0' & Hids' & Hq1' & ->).
    rewrite Hq0 in Hq0'. injection Hq0' as <-.
    rewrite Hids in Hids'. injection Hids' as <-.
    rewrite Hq1 in Hq1'. injection Hq1' as <-.
    by rewrite !length_matching, !apply_sort_filter.
  - intros ????????????? Hf Hf'.
    apply find_all_active_by_formid_items in Hf as (rows & Hrows & _).
    apply find_all_active_by_formid_items in Hf' as (rows' & Hrows' & _).
    apply find_all_active_by_formid_rows_inv in Hrows as (q & Hq & Hp).
    apply find_all_active_by_formid_rows_inv in Hrows' as (q' & Hq' & Hp').
    pose proof (unpaged_find_all_active_by_formid_query _ _ _ _ _ _ _ Hq) as Hu.
    pose proof (unpaged_find_all_active_by_formid_query _ _ _ _ _ _ _ Hq')
      as Hu'.
    destruct (count_and_paginate_spec _ _ _ _ _ _ _ Hu Hp) as (-> & _).
    destruct (count_and_paginate_spec _ _ _ _ _ _ _ Hu' Hp') as (-> & _).
    apply find_all_active_by_formid_query_inv in Hq
      as (q0 & ids & q1 & Hq0 & Hids & Hq1 & ->).
    apply find_all_active_by_formid_query_inv in Hq'
      as (q0' & ids' & q1' & Hq0' & Hids' & Hq1' & ->).
    rewrite Hq0 in Hq0'. injection Hq0' as <-.
    rewrite Hids in Hids'. injection Hids' as <-.
    rewrite Hq1 in Hq1'. injection Hq1' as <-.
    by rewrite !length_matching, !apply_sort_filter.
Qed.

(** ** Pages *)



(** ** find_all *)

Lemma insert_sorted_HdRel (x y : FormProcessMapper) (l : list FormProcessMapper) :
  HdRel (fun a b => id b ≤ id a) y l → id x ≤ id y →
  HdRel (fun a b => id b ≤ id a) y (insert_sorted id_desc x l).
Proof.
  intros Hl Hx. destruct l as [|z l]; simpl; [by constructor|].
  destruct (id_desc x z); constructor; [done|]. by inversion Hl.
Qed.

Lemma insert_sorted_id_descending (x : FormProcessMapper)
    (l : list FormProcessMapper) :
  id_descending l → id_descending (insert_sorted id_desc x l).
Proof.
  unfold id_descending. induction 1 as [|y l Hs IH Hhd]; simpl.
  - repeat constructor.
  - unfold id_desc at 1. destruct (Z.leb_spec (id y) (id x)).
    + constructor; [by constructor|]. by constructor.
    + constructor; [done|]. apply insert_sorted_HdRel; [done | lia].
Qed.

Lemma filter_no_condition (t : Table) : List.filter (holds_all []) t = t.
Proof. induction t as [|r t IH]; simpl; [done | by rewrite IH]. Qed.

(** X17.  [find_all] with page number 0 returns every row of the table
    once, in descending order of the primary key, whatever the limit is;
    with another page number and a limit of at least 1 it returns at most
    [limit] rows, all of them rows of the table. *)
Theorem find_all_page_zero_is_everything amb (limit : Z) (t : Table) :
  (find_all amb 0 limit t ≡ₚ t ∧ id_descending (find_all amb 0 limit t)) ∧
  (∀ page_number, page_number ≠ 0 → 1 ≤ limit →
     Z.of_nat (length (find_all amb page_number limit t)) ≤ limit ∧
     ∀ r, r ∈ find_all amb page_number limit t → r ∈ t).
Proof.
  split.
  - unfold find_all, query_all, matching. simpl.
    rewrite drop_0, filter_no_condition. split; [apply sort_rows_perm|].
    induction t as [|r t IH]; simpl; [constructor|].
    by apply insert_sorted_id_descending.
  - intros page_number Hp Hl. unfold find_all.
    destruct (Z.eqb_spec page_number 0) as [?|_]; [done|]. split.
    + unfold paginate, prepare_per_page, query_all. simpl.
      destruct (Z.ltb_spec limit 1); [lia|]. rewrite length_take. lia.
    + intros r Hr. apply elem_of_paginate, elem_of_matching in Hr. tauto.
Qed.

(** ** Unpublishing *)


Lemma find_form_by_id_commit (self self' : FormProcessMapper) (t : Table) :
  self ∈ t → id self' = id self →
  find_form_by_id (id self) (commit self' t) = Some self'.
Proof.
  intros Hself Hid. rewrite find_form_by_id_head. unfold commit.
  induction t as [|x t IH]; [by apply not_elem_of_nil in Hself|]. simpl.
  destruct (Z.eqb_spec (id x) (id self')) as [Hx|Hx].
  - by rewrite Hid, Z.eqb_refl.
  - destruct (Z.eqb_spec (id x) (id self)) as [?|_]; [congruence|].
    apply IH. apply elem_of_cons in Hself as [->|?]; [congruence | done].
Qed.




(** ** What the active listing shows *)

(** X20.  [find_all_active] called without filters, process keys and
    limit, for page 1, returns every row with status ACTIVE (of the
    caller's tenant, when the context has one) and counts them all; the
    [deleted] flag of a row plays no part. *)
Theorem find_all_active_lists_every_active_row amb page_number sort_by
    sort_order (t : Table) :
  served_page amb page_number = 1 →
  ∃ items,
    find_all_active amb page_number None sort_by sort_order None [] t
      = Return (items, Z.of_nat (length items)) ∧
    ∀ r, r ∈ t → status r = Some ACTIVE →
         (∀ T, tenant_key (user amb) = Some T → tenant r = Some T) →
         with_entities find_all_active_entities r ∈ items.
Proof.
  intros Hpage.
  destruct (find_all_active amb page_number None sort_by sort_order None [] t)
    as [[items n]|e] eqn:Hf.
  - exists items.
    apply find_all_active_items in Hf as (rows & Hrows & ->).
    apply find_all_active_rows_inv in Hrows as (q & Hq & Hp).
    pose proof (unpaged_find_all_active_query _ _ _ _ _ _ Hq) as Hu.
    destruct (count_and_paginate_spec _ _ _ _ _ _ _ Hu Hp)
      as (-> & Hall & _).
    rewrite (Hall eq_refl Hpage), length_map. split; [done|].
    intros r Hr Hs Ht. apply list_elem_of_fmap. exists r. split; [done|].
    apply elem_of_matching. split; [done|].
    apply find_all_active_query_inv in Hq as (q0 & q1 & Hq0 & Hq1 & ->).
    apply Return_inj in Hq0 as <-.
    apply access_filter_filter in Hq1 as [_ Hq1].
    rewrite apply_sort_filter, Hq1. simpl. unfold status_is.
    rewrite (proj2 (eq_str_true _ _) Hs). simpl.
    destruct (tenant_key (user amb)) as [T|]; [|done]. simpl.
    unfold tenant_is. by rewrite (proj2 (eq_str_true _ _) (Ht T eq_refl)).
  - unfold find_all_active, find_all_active_rows, find_all_active_query,
      access_filter in Hf. simpl in Hf.
    by destruct (tenant_key (user amb)).
Qed.

(** ** What update writes *)

Lemma setattr_getattr (self self' : FormProcessMapper) (key : string)
    (value : pyval) :
  key ∈ column_names →
  setattr self key value = Return self' →
  getattr key self' = value.
Proof.
  intros Hk. unfold column_names in Hk.
  repeat (apply elem_of_cons in Hk as [->|Hk];
          [ unfold setattr; simpl; destruct value; simpl;
            try discriminate; by intros [= <-]
          | ]).
  by apply not_elem_of_nil in Hk.
Qed.

Lemma update_from_dict_writes (columns : list string)
    (values_dict : gmap string pyval) (self self' : FormProcessMapper)
    (key : string) (value : pyval) :
  NoDup columns → key ∈ columns → key ∈ column_names →
  values_dict !! key = Some value →
  update_from_dict self columns values_dict = Return self' →
  getattr key self' = value.
Proof.
  intros Hnd Hin Hcol Hv. revert self.
  induction Hnd as [|c columns Hc Hnd IH]; intros self;
    [by apply not_elem_of_nil in Hin|].
  apply elem_of_cons in Hin as [<-|Hin]; simpl.
  - rewrite Hv. intros Hu. apply bind_Return in Hu as (s1 & Hs & Hu).
    rewrite (update_from_dict_frame _ _ _ _ key Hu) by by left.
    by eapply setattr_getattr.
  - destruct (values_dict !! c).
    + intros Hu. apply bind_Return in Hu as (s1 & _ & Hu). by eapply IH.
    + by apply IH.
Qed.

(** X21.  After [update], each column of the allow-list that is a key of
    the bag holds the value that the bag gives it, the table has the
    updated row in the place of the row with its primary key, and
    [find_form_by_id] finds the updated row. *)
Theorem update_writes_the_bag (self : FormProcessMapper)
    (mapper_info : gmap string pyval) (t : Table)
    (self' : FormProcessMapper) (t' : Table) :
  self ∈ t →
  update self mapper_info t = Return (self', t') →
  (∀ key value,
     key ∈ update_columns → key ≠ "form_revision_number" →
     mapper_info !! key = Some value → getattr key self' = value) ∧
  map id t' = map id t ∧
  (∀ r, r ∈ t → id r ≠ id self → r ∈ t') ∧
  find_form_by_id (id self) t' = Some self'.
Proof.
  intros Hself Hu. unfold update in Hu.
  apply bind_Return in Hu as (s1 & Hu & Hr).
  apply Return_inj in Hr. injection Hr as <- <-.
  destruct (update_from_dict_keeps_deleted _ _ _ Hu) as [Hid _].
  split_and!.
  - intros key value Hk Hne Hv.
    eapply update_from_dict_writes; [| done | | done | done].
    + apply (bool_decide_unpack _). by vm_compute.
    + unfold update_columns in Hk.
      repeat (apply elem_of_cons in Hk as [->|Hk];
              [first [done | apply (bool_decide_unpack _); by vm_compute]|]).
      by apply not_elem_of_nil in Hk.
  - apply map_id_commit.
  - intros r Hr Hi. unfold commit. apply list_elem_of_fmap. exists r.
    split; [|done]. rewrite Hid. by destruct (Z.eqb_spec (id r) (id self)).
  - by apply find_form_by_id_commit.
Qed.

End MoreProperties.

(** * The further properties on the example table *)

Lemma demo_table_primary_key : NoDup (map id Demo.table).
Proof. apply (bool_decide_unpack _). by vm_compute. Qed.

(** X2 on the example bag without its [form_name]. *)
Lemma create_from_dict_logs_first_missing_key_witness :
  let bag := delete "form_name" Demo.bag in
  let w := {| db := Demo.table; log := [] |} in
  bag ≠ ∅ ∧ first_missing_key bag = Some "form_name" ∧
  @create_from_dict Demo.collaborators bag w =
    (Return bad_request_response,
     {| db := Demo.table; log := [KeyError "form_name"] |}).
Proof.
  intros bag w.
  assert (bag ≠ ∅) as Hne.
  { intros Hb. apply (f_equal (fun m => m !! "form_id")) in Hb.
    vm_compute in Hb. discriminate Hb. }
  assert (first_missing_key bag = Some "form_name") as Hk by reflexivity.
  split; [exact Hne|]. split; [exact Hk|].
  exact (@create_from_dict_logs_first_missing_key Demo.collaborators
           bag w "form_name" Hne Hk).
Defined.

(** X3 on the example bag with an [id] and a [deleted] key added: neither
    is an attribute of the object that is saved. *)
Lemma create_from_dict_saves_named_attributes_witness :
  let bag := <["id" := PInt 99]> (<["deleted" := PBool true]> Demo.bag) in
  let w := {| db := Demo.table; log := [] |} in
  first_missing_key bag = None ∧
  ∃ mapper,
    mapper !! "id" = None ∧ mapper !! "deleted" = None ∧
    mapper !! "form_id" = Some (PStr "H") ∧ mapper !! "version" = Some PNone ∧
    @create_from_dict Demo.collaborators bag w =
      match Demo.insert_row mapper Demo.table with
      | Return (row, t') => (Return (Mapper row), {| db := t'; log := [] |})
      | Raise err =>
          (Return bad_request_response, {| db := Demo.table; log := [err] |})
      end.
Proof.
  intros bag w. split; [reflexivity|].
  destruct (@create_from_dict_saves_named_attributes Demo.collaborators
              bag w eq_refl) as (mapper & Hin & Hout & Hc).
  exists mapper. split; [|split; [|split; [|split]]].
  - apply Hout. apply (bool_decide_unpack _). vm_compute. exact I.
  - apply Hout. apply (bool_decide_unpack _). vm_compute. exact I.
  - apply (Hin "form_id"). apply (bool_decide_unpack _). vm_compute. exact I.
  - apply (Hin "version"). apply (bool_decide_unpack _). vm_compute. exact I.
  - exact Hc.
Defined.

(** X5 on the example table: the created row has key 4 and is found. *)
Lemma create_then_find_form_by_id_witness :
  let w := {| db := Demo.table; log := [] |} in
  @save_inserts Demo.collaborators ∧
  ∃ m w', @create_from_dict Demo.collaborators Demo.bag w
            = (Return (Mapper m), w') ∧
          id m = 4 ∧ find_form_by_id 4 (db w') = Some m.
Proof.
  intros w. split; [exact demo_save_inserts|].
  destruct (@create_from_dict Demo.collaborators Demo.bag w)
    as [[[m|response st]|e] w'] eqn:Hc;
    [|vm_compute in Hc; discriminate Hc..].
  exists m, w'. split; [reflexivity|].
  assert (id m = 4) as Hid.
  { vm_compute in Hc. injection Hc as <- _. reflexivity. }
  split; [exact Hid|]. rewrite <- Hid.
  exact (proj1 (proj2 (@create_then_find_form_by_id Demo.collaborators
                         Demo.bag w w' m demo_save_inserts Hc))).
Defined.

(** X6 for the caller without tenant. *)
Lemma no_tenant_no_tenant_condition_witness :
  tenant_key (user (Demo.caller None)) = None ∧
  @tenant_authorization (Demo.caller None) (PyQuery base_query)
    = Return base_query.
Proof.
  split; [reflexivity|].
  exact (proj1 (@no_tenant_no_tenant_condition Demo.collaborators
                  (Demo.caller None) base_query eq_refl)).
Defined.

(** X7 on the example table: of the lineage [P] the second version is
    listed. *)
Lemma find_all_forms_lists_latest_rows_witness :
  let item := [PInt 2; PStr "Defaultflow"; PStr "F"; PStr "Form F"; PNone;
               PStr "active"; PBool false; PStr "form"; PNone; PNone] in
  let items := [item; [PInt 3; PStr "Defaultflow"; PStr "G"; PStr "Form G";
                       PNone; PStr "active"; PBool false; PStr "form"; PNone;
                       PNone]] in
  NoDup (map id Demo.table) ∧
  @find_all_forms Demo.collaborators (Demo.caller None) None None None None
     (Some ["P"; "Q"]) (Some true) None [] Demo.table = Return (items, 2) ∧
  ∃ r, r ∈ Demo.table ∧ item = with_entities find_all_forms_entities r ∧
       deleted r = Some false ∧ parent_form_id r ∈ ["P"; "Q"] ∧
       (∀ r', r' ∈ Demo.table → parent_form_id r' = parent_form_id r →
              id r' ≤ id r) ∧
       status r = Some "active".
Proof.
  intros item items.
  assert (@find_all_forms Demo.collaborators (Demo.caller None) None None None
            None (Some ["P"; "Q"]) (Some true) None [] Demo.table
          = Return (items, 2)) as Hf by (vm_compute; reflexivity).
  split; [exact demo_table_primary_key|]. split; [exact Hf|].
  destruct (@find_all_forms_lists_latest_rows Demo.collaborators _ _ _ _ _ _ _
              _ _ _ _ _ item demo_table_primary_key Hf)
    as (r & Hr & Hi & Hd & (wanted & Hw & Hp) & Hmax & Hst & _);
    [left|].
  injection Hw as <-.
  exists r. repeat split; try assumption. exact (Hst true eq_refl).
Defined.

(** X8 on the example table with the second version of [F] deleted: it is
    ACTIVE and the latest of its lineage, and it is listed. *)
Lemma find_all_active_by_formid_lists_latest_rows_witness :
  let latest := set_deleted (Some true) (Demo.row 2 "F" "P" 2 None "active") in
  let t := [Demo.row 1 "F" "P" 1 None "active"; latest;
            Demo.row 3 "G" "Q" 1 (Some "T1") "active"] in
  let item := [PInt 2; PStr "Defaultflow"; PStr "F"; PStr "Form F"; PNone;
               PNone] in
  NoDup (map id t) ∧
  @find_all_active_by_formid Demo.collaborators (Demo.caller None) None None
     None None (Some ["P"]) [] t = Return ([item], 1) ∧
  deleted latest = Some true ∧
  item = with_entities find_all_active_by_formid_entities latest ∧
  (∃ items,
     @find_all_active_by_formid Demo.collaborators (Demo.caller None) None
        None None None (Some ["P"]) [] t
       = Return (items, Z.of_nat (length items)) ∧
     item ∈ items) ∧
  ∃ r, r ∈ t ∧ item = with_entities find_all_active_by_formid_entities r ∧
       status r = Some "active" ∧ parent_form_id r ∈ ["P"] ∧
       ∀ r', r' ∈ t → parent_form_id r' = parent_form_id r → id r' ≤ id r.
Proof.
  intros latest t item.
  assert (NoDup (map id t)) as Hnd
    by (apply (bool_decide_unpack _); vm_compute; exact I).
  assert (@find_all_active_by_formid Demo.collaborators (Demo.caller None)
            None None None None (Some ["P"]) [] t
          = Return ([item], 1)) as Hf by (vm_compute; reflexivity).
  destruct (@find_all_active_by_formid_lists_latest_rows Demo.collaborators
              (Demo.caller None) None None t Hnd) as [Hsound Hcomplete].
  split; [exact Hnd|]. split; [exact Hf|]. split; [reflexivity|].
  split; [reflexivity|]. split.
  - destruct (Hcomplete None ["P"] eq_refl) as (items & Hitems & Hall).
    exists items. split; [exact Hitems|].
    apply (Hall latest (Some true)).
    + right. left.
    + reflexivity.
    + reflexivity.
    + discriminate.
    + left.
    + intros r' Hr' Hp.
      repeat (apply elem_of_cons in Hr' as [->|Hr'];
              [first [discriminate Hp | simpl; lia]|]).
      apply not_elem_of_nil in Hr'. destruct Hr'.
  - destruct (Hsound None None (Some ["P"]) [] [item] 1 item Hf)
      as (r & Hr & Hi & Hst & (wanted & Hw & Hp) & Hmax); [left|].
    injection Hw as <-. exists r. repeat split; assumption.
Defined.

(** X9 on the example table with the second version of [F] deleted: the
    first version is not listed in its place. *)
Lemma deleted_latest_row_hides_lineage_witness :
  let latest := set_deleted (Some true) (Demo.row 2 "F" "P" 2 None "active") in
  let t := [Demo.row 1 "F" "P" 1 None "active"; latest;
            Demo.row 3 "G" "Q" 1 (Some "T1") "active"] in
  let items := [[PInt 3; PStr "Defaultflow"; PStr "G"; PStr "Form G"; PNone;
                 PStr "active"; PBool false; PStr "form"; PNone; PNone]] in
  NoDup (map id t) ∧ latest ∈ t ∧ deleted latest ≠ Some false ∧
  @find_all_forms Demo.collaborators (Demo.caller None) None None None None
     (Some ["P"; "Q"]) None None [] t = Return (items, 1) ∧
  ∀ item, item ∈ items →
    ∃ r, r ∈ t ∧ item = with_entities find_all_forms_entities r ∧
         parent_form_id r ≠ "P".
Proof.
  intros latest t items.
  assert (NoDup (map id t)) as Hnd
    by (apply (bool_decide_unpack _); vm_compute; exact I).
  assert (latest ∈ t) as Hl by (right; left).
  assert (deleted latest ≠ Some false) as Hd by discriminate.
  assert (@find_all_forms Demo.collaborators (Demo.caller None) None None None
            None (Some ["P"; "Q"]) None None [] t = Return (items, 1)) as Hf
    by (vm_compute; reflexivity).
  repeat (split; [assumption|]).
  apply (@deleted_latest_row_hides_lineage Demo.collaborators
           (Demo.caller None) None None None None (Some ["P"; "Q"]) None None
           [] t items 1 latest Hnd Hl); [|exact Hd|exact Hf].
  intros r' Hr' Hp.
  repeat (apply elem_of_cons in Hr' as [->|Hr'];
          [first [discriminate Hp | simpl; lia]|]).
  apply not_elem_of_nil in Hr'. destruct Hr'.
Defined.

(** X10 on the example table. *)
Lemma listing_without_form_ids_raises_witness :
  Demo.table ≠ [] ∧
  @find_all_forms Demo.collaborators (Demo.caller None) None None None None
     None None None [] Demo.table
    = Raise (TypeError "argument of type 'NoneType' is not iterable").
Proof.
  assert (Demo.table ≠ []) as Ht by discriminate.
  split; [exact Ht|].
  exact (proj1 (@listing_without_form_ids_raises Demo.collaborators
                  (Demo.caller None) None None None None None None []
                  Demo.table Ht)).
Defined.

(** X11 with a filter name that the example filter table does not have. *)
Lemma unknown_filter_name_raises_witness :
  let filters := [("form_name", PStr "Form F"); ("created_by", PStr "admin")] in
  ("created_by", PStr "admin") ∈ filters ∧
  truthy (PStr "admin") = true ∧
  @FILTER_MAPS Demo.collaborators !! "created_by" = None ∧
  ∃ e, @filter_conditions Demo.collaborators filters = Raise e.
Proof.
  intros filters.
  assert (("created_by", PStr "admin") ∈ filters) as Hin by (right; left).
  assert (@FILTER_MAPS Demo.collaborators !! "created_by" = None) as Hk
    by reflexivity.
  split; [exact Hin|]. split; [reflexivity|]. split; [exact Hk|].
  exact (proj1 (@unknown_filter_name_raises Demo.collaborators filters
                  "created_by" (PStr "admin") Hin eq_refl Hk)).
Defined.

(** X12 with one truthy and one empty filter: one condition. *)
Lemma filter_conditions_one_condition_per_filter_witness :
  let filters := [("form_name", PStr "Form F"); ("form_type", PStr "")] in
  ∃ q, @filter_conditions Demo.collaborators filters = Return q ∧
       length (q_filter q) = 1%nat.
Proof.
  intros filters.
  destruct (@filter_conditions Demo.collaborators filters) as [q|e] eqn:Hf;
    [|vm_compute in Hf; discriminate Hf].
  exists q. split; [reflexivity|].
  destruct (@filter_conditions_one_condition_per_filter Demo.collaborators
              filters q Hf) as (_ & _ & _ & Hall).
  apply Forall2_length in Hall. rewrite <- Hall. reflexivity.
Defined.




(** X20 on a table whose only row is ACTIVE and deleted: it is listed. *)
Lemma find_all_active_lists_every_active_row_witness :
  let r := set_deleted (Some true) (Demo.row 1 "F" "P" 1 None "active") in
  served_page (Demo.caller None) None = 1 ∧
  ∃ items,
    @find_all_active Demo.collaborators (Demo.caller None) None None None None
       None [] [r] = Return (items, Z.of_nat (length items)) ∧
    [PInt 1; PStr "Defaultflow"; PStr "F"; PStr "Form F"] ∈ items.
Proof.
  intros r. split; [reflexivity|].
  destruct (@find_all_active_lists_every_active_row Demo.collaborators
              (Demo.caller None) None None None [r] eq_refl)
    as (items & Hf & Hall).
  exists items. split; [exact Hf|].
  apply (Hall r); [left | reflexivity | discriminate].
Defined.

(** X21 on row 1 of the example table. *)
Lemma update_writes_the_bag_witness :
  let self := Demo.row 1 "F" "P" 1 None "active" in
  let bag : gmap string pyval :=
    list_to_map [("form_name", PStr "Renamed"); ("comments", PNone);
                 ("is_anonymous", PBool true)] in
  self ∈ Demo.table ∧
  ∃ self' t',
    update self bag Demo.table = Return (self', t') ∧
    getattr "form_name" self' = PStr "Renamed" ∧
    getattr "comments" self' = PNone ∧
    getattr "is_anonymous" self' = PBool true ∧
    find_form_by_id 1 t' = Some self'.
Proof.
  intros self bag.
  assert (self ∈ Demo.table) as Hself by left.
  split; [exact Hself|].
  destruct (update self bag Demo.table) as [[self' t']|e] eqn:Hu;
    [|vm_compute in Hu; discriminate Hu].
  exists self', t'. split; [reflexivity|].
  destruct (update_writes_the_bag self bag Demo.table self' t' Hself Hu)
    as (Hw & _ & _ & Hfind).
  split; [|split; [|split; [|exact Hfind]]].
  - apply Hw; [|discriminate|reflexivity].
    apply (bool_decide_unpack _). vm_compute. exact I.
  - apply Hw; [|discriminate|reflexivity].
    apply (bool_decide_unpack _). vm_compute. exact I.
  - apply Hw; [|discriminate|reflexivity].
    apply (bool_decide_unpack _). vm_compute. exact I.
Defined.
